(** * Slumberr firmware: the duty cycle of [Firmware/firmware.ino]

    A shallow embedding of the sketch's [setup()] and of the functions it
    calls.  One run of [setup] is one wake of the device: the sketch ends
    every wake in deep sleep, from which the chip restarts, so the globals
    [isMorning] and [wifiInitialized] start every wake at their
    initialisers while the SPIFFS file [/data_log.txt] survives.

    Everything the sketch obtains from hardware or from a library (mount
    result, WiFi association, clock reads, sensor values, what [printf]
    emits for a floating conversion) is an input of the wake, gathered in
    [Env].  Every externally visible action is recorded, in program order,
    in a trace of [Event]s. *)

From Stdlib Require Import ZArith List String Ascii Bool Lia.
From Stdlib Require Import DecimalString PrimFloat.
Import ListNotations.

Local Open Scope string_scope.
Local Open Scope Z_scope.
Local Open Scope list_scope.

(** ** Constants of the sketch *)

Definition I2C_SDA_PIN : Z := 21.
Definition I2C_SCL_PIN : Z := 20.
Definition ONE_WIRE_BUS : Z := 10.
Definition VIBRATION_MOTOR_PIN : Z := 3.

(** [const uint64_t SLEEP_INTERVAL = 20 * 1000000LL], in microseconds. *)
Definition SLEEP_INTERVAL : Z := 20 * 1000000.

Definition MORNING_HOUR : Z := 6.

(** [const int BUFFER_SIZE = 100] of [collectAndLogData]. *)
Definition BUFFER_SIZE : nat := 100.

(** The fields of [struct tm] the sketch reads. *)
Record tm : Type := mk_tm { tm_hour : Z; tm_min : Z; tm_sec : Z }.

(** ** Text *)

Definition newline : ascii := "010"%char.
Definition nl : string := String newline EmptyString.

(** [no_newline s]: the character ['\n'] does not occur in [s]. *)
Fixpoint no_newline (s : string) : bool :=
  match s with
  | EmptyString => true
  | String c r => negb (Ascii.eqb c newline) && no_newline r
  end.

(** ** [printf]

    The sketch uses two conversions, [%02d] and [%.2f].  An argument of a
    variadic call is an [int] or a [double] ([float] is promoted). *)

Inductive varg : Type :=
| VInt (z : Z)
| VDouble (d : float).

Inductive conv : Type := D02 | F2.

Inductive piece : Type :=
| Lit (c : ascii)
| Conv (c : conv).

(** Reading a format string: the two conversions of the sketch are
    recognised, every other character is copied. *)
Fixpoint parse_format (s : string) : list piece :=
  match s with
  | EmptyString => []
  | String "%" (String "0" (String "2" (String "d" r))) => Conv D02 :: parse_format r
  | String "%" (String "." (String "2" (String "f" r))) => Conv F2 :: parse_format r
  | String c r => Lit c :: parse_format r
  end.

(** The type a conversion requires of its argument (C11 7.21.6.1): [d]
    takes an [int], [f] a [double]. *)
Definition accepts (c : conv) (a : varg) : bool :=
  match c, a with
  | D02, VInt _ => true
  | F2, VDouble _ => true
  | _, _ => false
  end.

(** The conversions of a call whose argument has another type than the
    conversion requires, in order. *)
Fixpoint mismatches (fmt : list piece) (args : list varg) : list (conv * varg) :=
  match fmt with
  | [] => []
  | Lit _ :: fmt' => mismatches fmt' args
  | Conv c :: fmt' =>
      match args with
      | [] => []
      | a :: args' =>
          if accepts c a then mismatches fmt' args'
          else (c, a) :: mismatches fmt' args'
      end
  end.

(** [%02d]: decimal, at least two characters, padded with zeros; the sign
    counts for the width. *)
Definition fmt_d02 (z : Z) : string :=
  let s := NilZero.string_of_int (Z.to_int z) in
  if (String.length s <? 2)%nat then String "0" s else s.

(** The C library, an input of the wake.

    [f2_text d] is what [%.2f] writes for the double [d].

    When a conversion meets an argument of another type than it takes, or
    no argument, the call is undefined: the library goes on reading its
    arguments out of step, and what it writes for this conversion and for
    every conversion after it is not a function of the argument converted.
    It may depend on the other arguments, on the call and on the state of
    the machine.  [stray_text fmt args i] is what the library writes, in
    this wake, for the [i]-th conversion (from 0) of the call with format
    [fmt] and arguments [args] once the call is out of step.  The two
    [printf] calls of [collectAndLogData] have different formats, so they
    may write different texts for the same arguments; every wake has its
    own library, so two wakes may too. *)
Record Libc : Type := mkLibc {
  f2_text : float -> string;
  stray_text : list piece -> list varg -> nat -> string
}.

(** What a conversion writes for an argument of the type it takes: [%02d]
    of an [int] is computed, [%.2f] of a [double] is the library's.
    [None]: the argument has another type. *)
Definition render (lc : Libc) (c : conv) (a : varg) : option string :=
  match c, a with
  | D02, VInt z => Some (fmt_d02 z)
  | F2, VDouble d => Some (f2_text lc d)
  | _, _ => None
  end.

(** The pieces [fmt] of the format [fmt0] that remain to be written, with
    the arguments [args] of [args0] that remain to be read; [i] counts the
    conversions done and [in_step] tells whether every one of them met an
    argument of its type. *)
Fixpoint printf_from (lc : Libc) (fmt0 : list piece) (args0 : list varg)
    (i : nat) (in_step : bool) (fmt : list piece) (args : list varg) : string :=
  match fmt with
  | [] => EmptyString
  | Lit c :: fmt' => String c (printf_from lc fmt0 args0 i in_step fmt' args)
  | Conv c :: fmt' =>
      match args with
      | [] =>
          (stray_text lc fmt0 args0 i
           ++ printf_from lc fmt0 args0 (S i) false fmt' [])%string
      | a :: args' =>
          match (if in_step then render lc c a else None) with
          | Some text =>
              (text ++ printf_from lc fmt0 args0 (S i) true fmt' args')%string
          | None =>
              (stray_text lc fmt0 args0 i
               ++ printf_from lc fmt0 args0 (S i) false fmt' args')%string
          end
      end
  end.

Definition printf (lc : Libc) (fmt : list piece) (args : list varg) : string :=
  printf_from lc fmt args 0 true fmt args.

(** The two format strings of [collectAndLogData] and the one of [setup]. *)
Definition log_format : list piece :=
  parse_format ("%02d:%02d:%02d,%.2f,%.2f,%.2f" ++ nl)%string.

Definition logged_format : list piece :=
  parse_format ("Logged: %02d:%02d:%02d, HR: %.2f, SpO2: %.2f, Temp: %.2f" ++ nl)%string.

Definition current_time_format : list piece :=
  parse_format ("Current time: %02d:%02d:%02d" ++ nl)%string.

(** The arguments [collectAndLogData] passes after the format:
    [timeinfo.tm_hour, timeinfo.tm_min, timeinfo.tm_sec, heartRate, spo2,
    temperature], where [heartRate] and [spo2] are [int32_t] and
    [temperature] is a [float]. *)
Definition log_args (t : tm) (heartRate spo2 : Z) (temperature : float) : list varg :=
  [VInt (tm_hour t); VInt (tm_min t); VInt (tm_sec t);
   VInt heartRate; VInt spo2; VDouble temperature].

Definition log_line (lc : Libc)
    (t : tm) (heartRate spo2 : Z) (temperature : float) : string :=
  printf lc log_format (log_args t heartRate spo2 temperature).

(** ** Reading the log back: [File::available] and [readStringUntil] *)

Definition available (s : string) : bool :=
  match s with EmptyString => false | String _ _ => true end.

(** [readStringUntil t]: the characters before the first [t], and what is
    left of the file after that [t] (or nothing at the end of the file). *)
Fixpoint readStringUntil (t : ascii) (s : string) : string * string :=
  match s with
  | EmptyString => (EmptyString, EmptyString)
  | String c r =>
      if Ascii.eqb c t then (EmptyString, r)
      else let '(l, r') := readStringUntil t r in (String c l, r')
  end.

(** The loop [while (logFile.available()) { line = readStringUntil('\n'); ... }]
    of [sendData], returning the lines in the order read. *)
Fixpoint read_loop (fuel : nat) (s : string) : list string :=
  match fuel with
  | O => []
  | S fuel' =>
      if available s then
        let '(line, rest) := readStringUntil newline s in
        line :: read_loop fuel' rest
      else []
  end.

(** Every turn of the loop consumes a character, so the length of the file
    bounds the number of turns. *)
Definition read_lines (s : string) : list string :=
  read_loop (String.length s) s.

(** The records a store holds: none when the file does not exist. *)
Definition store_lines (f : option string) : list string :=
  match f with
  | None => []
  | Some s => read_lines s
  end.


(** ** The world of one wake *)

(** What a wake receives from outside the sketch, one field per call site. *)
Record Env : Type := mkEnv {
  spiffs_begin : bool;           (* SPIFFS.begin(true), line 45 *)
  pox_begin : bool;              (* pox.begin(), line 95 *)
  mpu_testConnection : bool;     (* mpu.testConnection(), line 109 *)
  autoConnect_boot : bool;       (* wm.autoConnect, called from line 56 *)
  ntp_time : option tm;          (* getLocalTime in configureTime, line 129 *)
  autoConnect_sync : bool;       (* wm.autoConnect, called from line 76 *)
  rtc_setup : option tm;         (* getLocalTime in setup, line 67 *)
  open_read : bool;              (* SPIFFS can open an existing log, line 140 *)
  println_ok : string -> bool;   (* what Serial.println(line) returns, line 148 *)
  est_spo2 : Z;                  (* outputs of the estimator, line 167 *)
  est_validSpO2 : Z;
  est_heartRate : Z;
  est_validHeartRate : Z;
  tempC : float;                 (* sensors.getTempCByIndex(0), line 171 *)
  open_append : bool;            (* SPIFFS can open the log for append, line 174 *)
  rtc_log : option tm;           (* getLocalTime in collectAndLogData, line 181 *)
  accel : Z * Z * Z;             (* mpu.getAcceleration, line 195 *)
  libc : Libc                    (* the C library behind printf *)
}.

(** The state a wake works on: the log file of the flash file system
    ([None]: no such file) and the two global flags. *)
Record State : Type := mkState {
  log_file : option string;
  isMorning : bool;
  wifiInitialized : bool
}.

Inductive Event : Type :=
| SerialBegin (baud : Z)
| SerialPrint (s : string)
| SerialPrintTime (t : tm)
| FsBegin (ok : bool)
| WireBegin (sda scl : Z)
| PoxBegin (ok : bool)
| PoxConfigure
| TempBegin
| MpuInitialize (ok : bool)
| WiFiModeSta
| AutoConnect (ap : string) (ok : bool)
| ConfigTime (server1 server2 : string)
| GetLocalTime (r : option tm)
| WiFiDisconnect
| FsOpen (mode : string) (ok : bool)
| FsPrint (s : string)
| FsClose
| FsRemove
| SinkLine (line : string) (ok : bool)
| SampleOptical (n : nat)
| Estimate
| RequestTemperatures
| GetAcceleration
| MotorWrite (pin : Z) (high : bool)
| Delay (ms : Z)
| TimerWakeup (us : Z)
| DeepSleepStart.

(** How a wake ends: [esp_deep_sleep_start] does not return; when [setup]
    returns instead, the empty [loop()] runs for ever with the chip awake. *)
Inductive Power : Type := Asleep | Awake.

(** State and trace are threaded through the calls. *)
Definition M (A : Type) : Type := State -> A * State * list Event.

Definition ret {A} (a : A) : M A := fun s => (a, s, []).

Definition bind {A B} (m : M A) (f : A -> M B) : M B :=
  fun s =>
    let '(a, s1, t1) := m s in
    let '(b, s2, t2) := f a s1 in
    (b, s2, t1 ++ t2).

Declare Scope fw_scope.
Delimit Scope fw_scope with fw.
Notation "x <- m ;; k" := (bind m (fun x => k))
  (at level 61, m at next level, right associativity) : fw_scope.
Notation "m ;; k" := (bind m (fun _ => k))
  (at level 61, right associativity) : fw_scope.
Local Open Scope fw_scope.

Definition emit (e : Event) : M unit := fun s => (tt, s, [e]).
Definition get : M State := fun s => (s, s, []).
Definition put (s : State) : M unit := fun _ => (tt, s, []).
Definition when (b : bool) (m : M unit) : M unit := if b then m else ret tt.

Definition set_isMorning (b : bool) : M unit :=
  s <- get ;; put (mkState (log_file s) b (wifiInitialized s)).
Definition set_wifiInitialized (b : bool) : M unit :=
  s <- get ;; put (mkState (log_file s) (isMorning s) b).
Definition set_log_file (f : option string) : M unit :=
  s <- get ;; put (mkState f (isMorning s) (wifiInitialized s)).

Definition state_of {A} (r : A * State * list Event) : State := snd (fst r).
Definition trace_of {A} (r : A * State * list Event) : list Event := snd r.
Definition value_of {A} (r : A * State * list Event) : A := fst (fst r).

(** ** The functions of the sketch *)

Definition initializeSensors (e : Env) : M unit :=
  emit (PoxBegin (pox_begin e)) ;;
  if negb (pox_begin e) then
    emit (SerialPrint "Failed to initialize MAX30105")
  else
    emit PoxConfigure ;;
    emit TempBegin ;;
    emit (MpuInitialize (mpu_testConnection e)) ;;
    when (negb (mpu_testConnection e))
      (emit (SerialPrint "Failed to initialize MPU6050")).

(** [connected] is the result of [wm.autoConnect("Sleep Portal")] at this
    call. *)
Definition initializeWiFi (connected : bool) : M bool :=
  emit WiFiModeSta ;;
  emit (AutoConnect "Sleep Portal" connected) ;;
  if negb connected then
    emit (SerialPrint "WiFi connection failed") ;; ret false
  else
    emit (SerialPrint "WiFi connected") ;; ret true.

Definition configureTime (e : Env) : M unit :=
  emit (ConfigTime "pool.ntp.org" "time.nist.gov") ;;
  emit (GetLocalTime (ntp_time e)) ;;
  match ntp_time e with
  | None => emit (SerialPrint "Failed to sync time with NTP")
  | Some t => emit (SerialPrintTime t)
  end.

(** [Serial.println(line)] for every line read; the value it returns is
    dropped. *)
Fixpoint send_lines (e : Env) (lines : list string) : M unit :=
  match lines with
  | [] => ret tt
  | line :: rest => emit (SinkLine line (println_ok e line)) ;; send_lines e rest
  end.

(** Opening for reading fails when the file does not exist. *)
Definition open_for_read (e : Env) : M (option string) :=
  s <- get ;;
  match log_file s with
  | Some content =>
      if open_read e then emit (FsOpen "r" true) ;; ret (Some content)
      else emit (FsOpen "r" false) ;; ret None
  | None => emit (FsOpen "r" false) ;; ret None
  end.

Definition sendData (e : Env) : M unit :=
  emit (SerialPrint "Sending data...") ;;
  f <- open_for_read e ;;
  match f with
  | None => emit (SerialPrint "Failed to open log file")
  | Some content =>
      send_lines e (read_lines content) ;;
      emit FsClose ;;
      emit FsRemove ;;
      set_log_file None
  end.

(** Opening for append creates the file when it does not exist. *)
Definition open_for_append (e : Env) : M bool :=
  if open_append e then
    s <- get ;;
    emit (FsOpen "a" true) ;;
    set_log_file (Some (match log_file s with Some c => c | None => EmptyString end)) ;;
    ret true
  else
    emit (FsOpen "a" false) ;; ret false.

(** [logFile.printf]: the text goes to the end of the file. *)
Definition file_print (text : string) : M unit :=
  s <- get ;;
  emit (FsPrint text) ;;
  set_log_file (Some (match log_file s with Some c => (c ++ text)%string | None => text end)).

Definition collectAndLogData (e : Env) : M unit :=
  emit (SampleOptical BUFFER_SIZE) ;;
  emit Estimate ;;
  let heartRate := est_heartRate e in
  let spo2 := est_spo2 e in
  emit RequestTemperatures ;;
  let temperature := tempC e in
  opened <- open_for_append e ;;
  if negb opened then
    emit (SerialPrint "Failed to open log file for writing")
  else
    emit (GetLocalTime (rtc_log e)) ;;
    match rtc_log e with
    | Some timeinfo =>
        file_print
          (printf (libc e) log_format (log_args timeinfo heartRate spo2 temperature)) ;;
        emit (SerialPrint
          (printf (libc e) logged_format (log_args timeinfo heartRate spo2 temperature)))
    | None => ret tt
    end ;;
    emit FsClose.

(** The pulse of the vibration motor. *)
Definition pulse : list Event :=
  [MotorWrite VIBRATION_MOTOR_PIN true; Delay 500; MotorWrite VIBRATION_MOTOR_PIN false].

Definition correctPosture (e : Env) : M unit :=
  emit GetAcceleration ;;
  let '(ax, ay, az) := accel e in
  when ((Z.abs ax >? 15000) || (Z.abs ay >? 15000))
    (emit (MotorWrite VIBRATION_MOTOR_PIN true) ;;
     emit (Delay 500) ;;
     emit (MotorWrite VIBRATION_MOTOR_PIN false)).

Definition prepareForDeepSleep : M unit :=
  emit (SerialPrint "Entering deep sleep...") ;;
  emit (TimerWakeup SLEEP_INTERVAL) ;;
  emit DeepSleepStart.

(** Lines 54-63 of [setup]. *)
Definition clock_bootstrap (e : Env) : M unit :=
  s <- get ;;
  when (negb (wifiInitialized s))
    (connected <- initializeWiFi (autoConnect_boot e) ;;
     if connected then
       configureTime e ;;
       emit WiFiDisconnect ;;
       set_wifiInitialized true
     else
       emit (SerialPrint "WiFi initialization failed")).

(** Lines 65-83 of [setup]. *)
Definition morning_sync (e : Env) : M unit :=
  emit (GetLocalTime (rtc_setup e)) ;;
  match rtc_setup e with
  | Some timeinfo =>
      emit (SerialPrint
        (printf (libc e) current_time_format
           [VInt (tm_hour timeinfo); VInt (tm_min timeinfo); VInt (tm_sec timeinfo)])) ;;
      when (tm_hour timeinfo >=? MORNING_HOUR) (set_isMorning true) ;;
      s <- get ;;
      when (isMorning s)
        (connected <- initializeWiFi (autoConnect_sync e) ;;
         when connected (sendData e ;; set_isMorning false))
  | None => emit (SerialPrint "Failed to get time from RTC")
  end.

Definition setup (e : Env) : M Power :=
  emit (SerialBegin 115200) ;;
  emit (FsBegin (spiffs_begin e)) ;;
  if negb (spiffs_begin e) then
    emit (SerialPrint "Failed to mount file system") ;;
    ret Awake
  else
    emit (WireBegin I2C_SDA_PIN I2C_SCL_PIN) ;;
    initializeSensors e ;;
    clock_bootstrap e ;;
    morning_sync e ;;
    collectAndLogData e ;;
    correctPosture e ;;
    prepareForDeepSleep ;;
    ret Asleep.

(** ** Wakes *)

(** The state a wake starts from: the file is what the previous wake
    left, the globals have their initialisers (lines 28-29). *)
Definition boot_state (file : option string) : State :=
  mkState file false false.

Definition wake (e : Env) (file : option string) : Power * State * list Event :=
  setup e (boot_state file).

(** A sequence of wakes, one environment each.  A wake that does not end
    in deep sleep is not followed by another. *)
Fixpoint wakes (es : list Env) (file : option string) : list (list Event) * option string :=
  match es with
  | [] => ([], file)
  | e :: es' =>
      let '(p, s, t) := wake e file in
      match p with
      | Asleep => let '(ts, f) := wakes es' (log_file s) in (t :: ts, f)
      | Awake => ([t], log_file s)
      end
  end.

(** ** Notions used in the statements *)

(** A file made of terminated lines. *)
Fixpoint file_of_lines (ls : list string) : string :=
  match ls with
  | [] => EmptyString
  | l :: ls' => (l ++ String newline (file_of_lines ls'))%string
  end.

(** A C library whose conversions never write a line feed. *)
Definition clean (lc : Libc) : Prop :=
  (forall d, no_newline (f2_text lc d) = true)
  /\ (forall fmt args i, no_newline (stray_text lc fmt args i) = true).

(** The text of a record without its terminator: the time, then what the
    library writes for the three conversions that follow the first
    [int32_t] handed to a [%.2f]. *)
Definition log_record (lc : Libc)
    (t : tm) (heartRate spo2 : Z) (temperature : float) : string :=
  let args := log_args t heartRate spo2 temperature in
  (fmt_d02 (tm_hour t) ++ ":" ++ fmt_d02 (tm_min t) ++ ":" ++ fmt_d02 (tm_sec t)
   ++ "," ++ stray_text lc log_format args 3
   ++ "," ++ stray_text lc log_format args 4
   ++ "," ++ stray_text lc log_format args 5)%string.

(** Counting in a trace. *)
Definition is_AutoConnect (ev : Event) : bool :=
  match ev with AutoConnect _ _ => true | _ => false end.

Definition is_ConfigTime (ev : Event) : bool :=
  match ev with ConfigTime _ _ => true | _ => false end.

Definition is_motor_on (ev : Event) : bool :=
  match ev with MotorWrite _ true => true | _ => false end.

Definition is_FsPrint (ev : Event) : bool :=
  match ev with FsPrint _ => true | _ => false end.

Definition is_sleep (ev : Event) : bool :=
  match ev with TimerWakeup _ | DeepSleepStart => true | _ => false end.

Definition count (p : Event -> bool) (t : list Event) : nat :=
  List.length (filter p t).

(** Association attempts ([wm.autoConnect]) in a trace. *)
Definition connection_attempts : list Event -> nat := count is_AutoConnect.

(** Whether a wake set the clock from the network ([configTime]). *)
Definition bootstraps (t : list Event) : bool := existsb is_ConfigTime t.

(** The wakes of a run that set the clock from the network. *)
Definition bootstrap_count (ts : list (list Event)) : nat :=
  List.length (filter bootstraps ts).

(** What the sink reported for a batch: every line accepted. *)
Definition delivery_ok (e : Env) (lines : list string) : bool :=
  forallb (println_ok e) lines.

(** The trace of the sink receiving [lines] in order. *)
Definition sink_trace (e : Env) (lines : list string) : list Event :=
  map (fun l => SinkLine l (println_ok e l)) lines.

(** The same wake with other validity flags from the estimator. *)
Definition with_validity (e : Env) (validSpO2 validHeartRate : Z) : Env :=
  mkEnv (spiffs_begin e) (pox_begin e) (mpu_testConnection e) (autoConnect_boot e)
        (ntp_time e) (autoConnect_sync e) (rtc_setup e) (open_read e) (println_ok e)
        (est_spo2 e) validSpO2 (est_heartRate e) validHeartRate (tempC e)
        (open_append e) (rtc_log e) (accel e) (libc e).

(** The content of a file that may not exist. *)
Definition content_of (f : option string) : string :=
  match f with Some c => c | None => EmptyString end.

(** The state in which a wake reaches the sync step (line 65). *)
Definition state_at_sync (e : Env) (file : option string) : State :=
  state_of (clock_bootstrap e (boot_state file)).

(** The state in which a wake reaches the acquisition step (line 86). *)
Definition state_at_collect (e : Env) (file : option string) : State :=
  state_of (morning_sync e (state_at_sync e file)).

(** The last three actions of a wake that goes to sleep. *)
Definition sleep_entry : list Event :=
  [SerialPrint "Entering deep sleep..."; TimerWakeup SLEEP_INTERVAL; DeepSleepStart].

(** The lines handed to the sink in a trace, in order. *)
Fixpoint sink_lines (t : list Event) : list string :=
  match t with
  | [] => []
  | SinkLine l _ :: t' => l :: sink_lines t'
  | _ :: t' => sink_lines t'
  end.

(** The acquisitions of several wakes in a row, on the same log. *)
Fixpoint append_all (es : list Env) (s : State) : State :=
  match es with
  | [] => s
  | e :: es' => append_all es' (state_of (collectAndLogData e s))
  end.

(** The record a wake logs, without its terminator. *)
Definition record_of (e : Env) : string :=
  match rtc_log e with
  | Some t => log_record (libc e) t (est_heartRate e) (est_spo2 e) (tempC e)
  | None => EmptyString
  end.

(** ** Notions used for whole wakes *)

(** The gate of line 71 as this wake sees it: the clock was read and the
    hour is not below [MORNING_HOUR]. *)
Definition gate_open (e : Env) : bool :=
  match rtc_setup e with
  | Some t => tm_hour t >=? MORNING_HOUR
  | None => false
  end.

Definition exists_file (f : option string) : bool :=
  match f with Some _ => true | None => false end.

(** The wake reaches [sendData] and [sendData] opens the log. *)
Definition drains (e : Env) (file : option string) : bool :=
  spiffs_begin e && gate_open e && autoConnect_sync e && open_read e && exists_file file.

(** The text [collectAndLogData] adds to the log in this wake. *)
Definition appended (e : Env) : string :=
  if spiffs_begin e && open_append e then
    match rtc_log e with
    | Some t => log_line (libc e) t (est_heartRate e) (est_spo2 e) (tempC e)
    | None => EmptyString
    end
  else EmptyString.

(** A file that is empty or ends with a line feed. *)
Fixpoint terminated (s : string) : bool :=
  match s with
  | EmptyString => true
  | String c r =>
      match r with
      | EmptyString => Ascii.eqb c newline
      | String _ _ => terminated r
      end
  end.

(** The parts of the device an action touches. *)
Inductive Device : Type :=
| Console | Flash | Sensors | Radio | Clock | Sink | Motor | Sleep.

Definition device (ev : Event) : Device :=
  match ev with
  | SerialBegin _ | SerialPrint _ | SerialPrintTime _ => Console
  | FsBegin _ | FsOpen _ _ | FsPrint _ | FsClose | FsRemove => Flash
  | WireBegin _ _ | PoxBegin _ | PoxConfigure | TempBegin | MpuInitialize _
  | SampleOptical _ | Estimate | RequestTemperatures | GetAcceleration => Sensors
  | WiFiModeSta | AutoConnect _ _ | WiFiDisconnect => Radio
  | ConfigTime _ _ | GetLocalTime _ => Clock
  | SinkLine _ _ => Sink
  | MotorWrite _ _ | Delay _ => Motor
  | TimerWakeup _ | DeepSleepStart => Sleep
  end.

Definition Device_eqb (a b : Device) : bool :=
  match a, b with
  | Console, Console | Flash, Flash | Sensors, Sensors | Radio, Radio
  | Clock, Clock | Sink, Sink | Motor, Motor | Sleep, Sleep => true
  | _, _ => false
  end.

Definition among (ds : list Device) (ev : Event) : bool :=
  existsb (Device_eqb (device ev)) ds.

(** Every action of the trace touches one of the devices [ds]. *)
Definition only (ds : list Device) (t : list Event) : bool :=
  forallb (among ds) t.

Definition is_WiFiDisconnect (ev : Event) : bool :=
  match ev with WiFiDisconnect => true | _ => false end.

Definition is_sensor_init (ev : Event) : bool :=
  match ev with PoxConfigure | TempBegin | MpuInitialize _ => true | _ => false end.

Definition is_sensor_read (ev : Event) : bool :=
  match ev with
  | SampleOptical _ | RequestTemperatures | GetAcceleration => true
  | _ => false
  end.

(** The level of the motor pin after a trace, from the level [lvl]. *)
Definition motor_level (t : list Event) (lvl : bool) : bool :=
  fold_left (fun l ev => match ev with MotorWrite _ h => h | _ => l end) t lvl.

(** The acceleration of this wake is above the threshold of line 198. *)
Definition tilted (e : Env) : bool :=
  let '(ax, ay, _) := accel e in (Z.abs ax >? 15000) || (Z.abs ay >? 15000).

(** All the lines handed to the sink in a run of wakes. *)
Definition run_sink (ts : list (list Event)) : list string :=
  List.concat (map sink_lines ts).

(** A clock reading within a day. *)
Definition valid_time (t : tm) : Prop :=
  0 <= tm_hour t < 24 /\ 0 <= tm_min t < 60 /\ 0 <= tm_sec t < 60.

(** The records a wake writes to the log: one, or none when the flash
    does not mount, the log does not open or the clock is not read. *)
Definition records_of (e : Env) : list string :=
  if spiffs_begin e && open_append e then
    match rtc_log e with
    | Some t => [log_record (libc e) t (est_heartRate e) (est_spo2 e) (tempC e)]
    | None => []
    end
  else [].

(** ** The dashboard script

    The script that follows the sketch charts what the collector serves.
    A measurement is a JavaScript number (a binary64 float) or is missing
    ([null] or [undefined]): [option float].  The comparisons [<], [<=]
    and [===] on numbers are those of IEEE 754. *)

Set Warnings "-inexact-float".

Definition detectSleepStage (hr spo2 temp : option float) : string :=
  match hr, spo2, temp with
  | Some hr, Some spo2, Some temp =>
      if ltb 90 hr then "Awake"
      else if ltb hr 60 && ltb 96 spo2 && ltb temp 36.4 then "Deep Sleep"
      else if leb 60 hr && leb hr 75 && leb 95 spo2 then "Light Sleep"
      else if ltb 75 hr && leb 96 spo2 && leb 36.5 temp then "REM Sleep"
      else "Light Sleep"
  | _, _, _ => "Unknown"
  end.

(** An object literal with string keys, in the order written; reading a
    key that is not there gives [undefined] ([None]). *)
Fixpoint property {A} (o : list (string * A)) (k : string) : option A :=
  match o with
  | [] => None
  | (k', v) :: o' => if String.eqb k' k then Some v else property o' k
  end.

(** [stageMap] and [colors] of [plotSleepStages]. *)
Definition stageMap : list (string * float) :=
  [("Deep Sleep", 1%float); ("Light Sleep", 2%float);
   ("REM Sleep", 3%float); ("Awake", 4%float)].

Definition stage_colors : list (string * string) :=
  [("Deep Sleep", "rgba(54, 162, 235, 0.7)");
   ("Light Sleep", "rgba(75, 192, 192, 0.7)");
   ("REM Sleep", "rgba(153, 102, 255, 0.7)");
   ("Awake", "rgba(255, 99, 132, 0.7)")].

(** The tick callback of the y axis:
    [Object.keys(stageMap).find(k => stageMap[k] === value)]. *)
Definition tick_label (value : float) : option string :=
  find (fun k => match property stageMap k with
                 | Some v => PrimFloat.eqb v value
                 | None => false
                 end)
       (map fst stageMap).

(** An item [{timestamp, value}] of a series. *)
Record reading : Type := mk_reading { timestamp : string; value : option float }.

Definition no_reading : reading := mk_reading EmptyString None.

(** The loop of [sleepDetection]: the labels and the stages it pushes. *)
Definition sleepDetection (hrData spo2Data tempData : list reading)
  : list string * list string :=
  let len := Nat.min (List.length hrData)
               (Nat.min (List.length spo2Data) (List.length tempData)) in
  (map (fun i => timestamp (nth i hrData no_reading)) (seq 0 len),
   map (fun i => detectSleepStage (value (nth i hrData no_reading))
                                  (value (nth i spo2Data no_reading))
                                  (value (nth i tempData no_reading)))
       (seq 0 len)).

(** The two data arrays [plotSleepStages] hands to the chart. *)
Definition plotSleepStages (stages : list string)
  : list (option float) * list (option string) :=
  (map (property stageMap) stages, map (property stage_colors) stages).

Set Warnings "+inexact-float".

(** ** Concrete wakes, for running the model *)

(** A C library that writes [0.00] for every floating conversion, in
    step or not. *)
Definition libc_zero : Libc := mkLibc (fun _ => "0.00") (fun _ _ _ => "0.00").

(** A wake at time [t] where every device answers; [mount] and [wifi] are
    the results of mounting the flash and of associating. *)
Definition env_at (t : tm) (mount wifi : bool) (xyz : Z * Z * Z) : Env :=
  mkEnv mount true true wifi (Some t) wifi (Some t) true (fun _ => true)
        98 1 72 1 36.5%float true (Some t) xyz libc_zero.

(** The same, with a sink that refuses every line. *)
Definition env_sink_down (t : tm) : Env :=
  mkEnv true true true true (Some t) true (Some t) true (fun _ => false)
        98 1 72 1 36.5%float true (Some t) (0, 0, 16384) libc_zero.



Definition two_records : string :=
  file_of_lines ["03:00:00,0.00,0.00,0.00"; "03:00:20,0.00,0.00,0.00"].

(** * Properties *)

(** ** Text: lines and the read loop *)

Lemma no_newline_app (a b : string) :
  no_newline (a ++ b)%string = no_newline a && no_newline b.
Proof.
  induction a as [|c a IH]; simpl; [reflexivity|].
  rewrite IH. now rewrite andb_assoc.
Qed.

Lemma readStringUntil_line (l rest : string) :
  no_newline l = true ->
  readStringUntil newline (l ++ String newline rest)%string = (l, rest).
Proof.
  induction l as [|c l IH]; simpl; intros H.
  - reflexivity.
  - apply andb_true_iff in H as [Hc Hl].
    apply negb_true_iff in Hc. rewrite Hc, (IH Hl). reflexivity.
Qed.

(** What [readStringUntil] leaves is shorter than what it was given. *)
Lemma readStringUntil_shorter (t : ascii) (s : string) :
  (String.length (snd (readStringUntil t s)) <= String.length s)%nat.
Proof.
  induction s as [|c s IH]; simpl; [lia|].
  destruct (Ascii.eqb c t); simpl; [lia|].
  destruct (readStringUntil t s) as [l r]; simpl in *. lia.
Qed.

(** The loop of [sendData] terminates: any fuel from the length of the
    file on gives the same lines. *)
Lemma read_loop_enough (n m : nat) (s : string) :
  (String.length s <= n)%nat -> (String.length s <= m)%nat ->
  read_loop n s = read_loop m s.
Proof.
  revert m s. induction n as [|n IH]; intros m s Hn Hm.
  - destruct s; simpl in Hn; [|lia]. destruct m; reflexivity.
  - destruct m as [|m].
    + destruct s; simpl in Hm; [reflexivity|lia].
    + destruct s as [|c s]; [reflexivity|].
      cbn [read_loop available].
      pose proof (readStringUntil_shorter newline s) as Hs.
      cbn [readStringUntil].
      destruct (Ascii.eqb c newline).
      * f_equal. apply IH; simpl in *; lia.
      * destruct (readStringUntil newline s) as [l r]; simpl in Hs.
        f_equal. apply IH; simpl in *; lia.
Qed.

Lemma read_lines_cons (l rest : string) :
  no_newline l = true ->
  read_lines (l ++ String newline rest)%string = l :: read_lines rest.
Proof.
  intros H. unfold read_lines.
  destruct (String.length (l ++ String newline rest)%string) as [|n] eqn:E.
  - destruct l; discriminate E.
  - cbn [read_loop].
    replace (available (l ++ String newline rest)%string) with true
      by (destruct l; reflexivity).
    rewrite (readStringUntil_line l rest H).
    f_equal. apply read_loop_enough; [|lia].
    assert (String.length (l ++ String newline rest)%string
            = (String.length l + S (String.length rest))%nat) as E'.
    { clear. induction l; simpl; [reflexivity|]. now rewrite IHl. }
    lia.
Qed.

Lemma read_lines_file_of_lines (ls : list string) :
  forallb no_newline ls = true ->
  read_lines (file_of_lines ls) = ls.
Proof.
  induction ls as [|l ls IH]; simpl; intros H; [reflexivity|].
  apply andb_true_iff in H as [Hl Hls].
  rewrite (read_lines_cons _ _ Hl), (IH Hls). reflexivity.
Qed.

Lemma string_app_assoc (a b c : string) :
  ((a ++ b) ++ c = a ++ (b ++ c))%string.
Proof. induction a; simpl; [reflexivity|]. now rewrite IHa. Qed.

Lemma string_app_nil_r (a : string) : (a ++ "" = a)%string.
Proof. induction a; simpl; [reflexivity|]. now rewrite IHa. Qed.

Lemma file_of_lines_app (ls ls' : list string) :
  file_of_lines (ls ++ ls') = (file_of_lines ls ++ file_of_lines ls')%string.
Proof.
  induction ls as [|l ls IH]; simpl; [reflexivity|].
  rewrite IH, string_app_assoc. reflexivity.
Qed.

(** ** Text: what [printf] writes for a log line *)

Lemma no_newline_digits (d : Decimal.uint) :
  no_newline (NilEmpty.string_of_uint d) = true.
Proof. induction d; simpl; auto. Qed.

Lemma no_newline_fmt_d02 (z : Z) : no_newline (fmt_d02 z) = true.
Proof.
  assert (forall d, no_newline (NilZero.string_of_uint d) = true) as Hu.
  { intros d. destruct d; simpl; auto using no_newline_digits. }
  assert (no_newline (NilZero.string_of_int (Z.to_int z)) = true) as Hi.
  { destruct (Z.to_int z); simpl; auto. }
  unfold fmt_d02. destruct (_ <? _)%nat; simpl; auto.
Qed.

(** A conversion writes the text of its argument exactly when the
    argument has the type it takes. *)
Lemma render_accepts (lc : Libc) (c : conv) (a : varg) :
  accepts c a = true <-> render lc c a <> None.
Proof. destruct c, a; cbn; split; congruence. Qed.

Lemma log_line_record lc t hr sp te :
  log_line lc t hr sp te = (log_record lc t hr sp te ++ nl)%string.
Proof.
  unfold log_line, log_record, log_format, log_args. cbn.
  repeat (rewrite ?string_app_assoc; cbn). reflexivity.
Qed.

Lemma no_newline_log_record lc t hr sp te :
  clean lc -> no_newline (log_record lc t hr sp te) = true.
Proof.
  intros [_ H]. unfold log_record. cbv zeta.
  repeat (rewrite no_newline_app; apply andb_true_iff; split);
    auto using no_newline_fmt_d02.
Qed.

(** ** The steps of [setup] *)

Lemma initializeSensors_state (e : Env) (s : State) :
  state_of (initializeSensors e s) = s.
Proof.
  unfold initializeSensors, when, state_of.
  destruct (pox_begin e), (mpu_testConnection e); reflexivity.
Qed.

Lemma wake_mounted (e : Env) (file : option string) :
  spiffs_begin e = true ->
  let s0 := boot_state file in
  let s1 := state_of (clock_bootstrap e s0) in
  let s2 := state_of (morning_sync e s1) in
  let s3 := state_of (collectAndLogData e s2) in
  wake e file =
    (Asleep, state_of (correctPosture e s3),
     [SerialBegin 115200; FsBegin true; WireBegin I2C_SDA_PIN I2C_SCL_PIN]
     ++ trace_of (initializeSensors e s0)
     ++ trace_of (clock_bootstrap e s0)
     ++ trace_of (morning_sync e s1)
     ++ trace_of (collectAndLogData e s2)
     ++ trace_of (correctPosture e s3)
     ++ sleep_entry).
Proof.
  intros Hm. cbv zeta.
  unfold wake, setup. rewrite Hm. cbn [negb].
  pose proof (initializeSensors_state e (boot_state file)) as Hs.
  unfold bind at 1 2 3 4 5 6 7 8 9. cbn [emit].
  unfold state_of, trace_of in *.
  destruct (initializeSensors e (boot_state file)) as [[u0 sa] ta]. cbn in Hs. subst sa.
  destruct (clock_bootstrap e (boot_state file)) as [[u1 s1] t1]. cbn [fst snd].
  destruct (morning_sync e s1) as [[u2 s2] t2]. cbn [fst snd].
  destruct (collectAndLogData e s2) as [[u3 s3] t3]. cbn [fst snd].
  destruct (correctPosture e s3) as [[u4 s4] t4]. cbn [fst snd].
  cbn. reflexivity.
Qed.

Lemma clock_bootstrap_boot (e : Env) (file : option string) :
  clock_bootstrap e (boot_state file) =
    (tt, mkState file false (autoConnect_boot e),
     [WiFiModeSta; AutoConnect "Sleep Portal" (autoConnect_boot e)]
     ++ (if autoConnect_boot e then
           [SerialPrint "WiFi connected";
            ConfigTime "pool.ntp.org" "time.nist.gov";
            GetLocalTime (ntp_time e);
            match ntp_time e with
            | None => SerialPrint "Failed to sync time with NTP"
            | Some t => SerialPrintTime t
            end;
            WiFiDisconnect]
         else
           [SerialPrint "WiFi connection failed";
            SerialPrint "WiFi initialization failed"])).
Proof.
  unfold clock_bootstrap, initializeWiFi, configureTime, boot_state.
  destruct (autoConnect_boot e); [destruct (ntp_time e)|]; reflexivity.
Qed.

Lemma send_lines_run (e : Env) (ls : list string) (s : State) :
  send_lines e ls s = (tt, s, sink_trace e ls).
Proof.
  induction ls as [|l ls IH]; [reflexivity|].
  cbn [send_lines]. unfold bind, emit. rewrite IH. reflexivity.
Qed.

Lemma sendData_opened (e : Env) (s : State) (content : string) :
  log_file s = Some content -> open_read e = true ->
  sendData e s =
    (tt, mkState None (isMorning s) (wifiInitialized s),
     [SerialPrint "Sending data..."; FsOpen "r" true]
     ++ sink_trace e (read_lines content) ++ [FsClose; FsRemove]).
Proof.
  intros Hf Ho. unfold sendData, open_for_read, bind, emit, get, ret.
  rewrite Hf, Ho. rewrite send_lines_run. cbn.
  reflexivity.
Qed.

Lemma sendData_not_opened (e : Env) (s : State) :
  log_file s = None \/ open_read e = false ->
  sendData e s =
    (tt, s, [SerialPrint "Sending data..."; FsOpen "r" false;
             SerialPrint "Failed to open log file"]).
Proof.
  intros H. unfold sendData, open_for_read, bind, emit, get, ret.
  destruct (log_file s) as [c|]; [|reflexivity].
  destruct H as [H|H]; [discriminate|]. rewrite H. reflexivity.
Qed.

(** The gate is closed: the clock is read, the time printed, and that is
    all. *)
Lemma morning_sync_closed (e : Env) (s : State) (t : tm) :
  rtc_setup e = Some t -> tm_hour t < MORNING_HOUR -> isMorning s = false ->
  morning_sync e s =
    (tt, s,
     [GetLocalTime (Some t);
      SerialPrint (printf (libc e) current_time_format
                     [VInt (tm_hour t); VInt (tm_min t); VInt (tm_sec t)])]).
Proof.
  intros Hr Hh Hm. unfold morning_sync. rewrite Hr.
  assert ((tm_hour t >=? MORNING_HOUR) = false) as -> by lia.
  unfold bind, emit, when, get, ret. rewrite Hm. reflexivity.
Qed.

(** The gate is open: an association is attempted; the log is sent when
    it succeeds. *)
Lemma morning_sync_open (e : Env) (s : State) (t : tm) :
  rtc_setup e = Some t -> MORNING_HOUR <= tm_hour t ->
  let s' := mkState (log_file s) true (wifiInitialized s) in
  morning_sync e s =
    (tt,
     (if autoConnect_sync e then
        mkState (log_file (state_of (sendData e s'))) false (wifiInitialized s)
      else s'),
     [GetLocalTime (Some t);
      SerialPrint (printf (libc e) current_time_format
                     [VInt (tm_hour t); VInt (tm_min t); VInt (tm_sec t)]);
      WiFiModeSta; AutoConnect "Sleep Portal" (autoConnect_sync e)]
     ++ (if autoConnect_sync e then
           SerialPrint "WiFi connected" :: trace_of (sendData e s')
         else [SerialPrint "WiFi connection failed"])).
Proof.
  intros Hr Hh. cbv zeta. unfold morning_sync. rewrite Hr.
  assert ((tm_hour t >=? MORNING_HOUR) = true) as -> by lia.
  unfold initializeWiFi, set_isMorning, bind, emit, when, get, put, ret.
  cbn [isMorning log_file wifiInitialized].
  destruct (autoConnect_sync e); cbn [negb]; [|reflexivity].
  assert (wifiInitialized (state_of (sendData e (mkState (log_file s) true (wifiInitialized s))))
          = wifiInitialized s) as Hw.
  { unfold sendData, open_for_read, bind, emit, get, ret, state_of.
    cbn [log_file]. destruct (log_file s) as [c|]; [|reflexivity].
    destruct (open_read e); [|reflexivity].
    rewrite send_lines_run. reflexivity. }
  unfold state_of, trace_of in *.
  destruct (sendData e _) as [[u s2] t2]. cbn in *. rewrite Hw.
  rewrite ?app_nil_r. reflexivity.
Qed.

Lemma collect_not_opened (e : Env) (s : State) :
  open_append e = false ->
  collectAndLogData e s =
    (tt, s,
     [SampleOptical BUFFER_SIZE; Estimate; RequestTemperatures; FsOpen "a" false;
      SerialPrint "Failed to open log file for writing"]).
Proof.
  intros Ho. unfold collectAndLogData, open_for_append, bind, emit, ret.
  rewrite Ho. reflexivity.
Qed.

Lemma collect_clock_unread (e : Env) (s : State) :
  open_append e = true -> rtc_log e = None ->
  collectAndLogData e s =
    (tt, mkState (Some (content_of (log_file s))) (isMorning s) (wifiInitialized s),
     [SampleOptical BUFFER_SIZE; Estimate; RequestTemperatures; FsOpen "a" true;
      GetLocalTime None; FsClose]).
Proof.
  intros Ho Hr.
  unfold collectAndLogData, open_for_append, set_log_file, bind, emit, get, put, ret.
  rewrite Ho, Hr. reflexivity.
Qed.

Lemma collect_logged (e : Env) (s : State) (t : tm) :
  open_append e = true -> rtc_log e = Some t ->
  collectAndLogData e s =
    (tt,
     mkState (Some (content_of (log_file s)
                    ++ log_line (libc e) t (est_heartRate e) (est_spo2 e) (tempC e))%string)
             (isMorning s) (wifiInitialized s),
     [SampleOptical BUFFER_SIZE; Estimate; RequestTemperatures; FsOpen "a" true;
      GetLocalTime (Some t);
      FsPrint (log_line (libc e) t (est_heartRate e) (est_spo2 e) (tempC e));
      SerialPrint (printf (libc e) logged_format
                     (log_args t (est_heartRate e) (est_spo2 e) (tempC e)));
      FsClose]).
Proof.
  intros Ho Hr.
  unfold collectAndLogData, open_for_append, file_print, set_log_file,
    bind, emit, get, put, ret.
  rewrite Ho, Hr. reflexivity.
Qed.

Lemma correctPosture_run (e : Env) (s : State) (ax ay az : Z) :
  accel e = (ax, ay, az) ->
  correctPosture e s =
    (tt, s,
     GetAcceleration ::
       (if (Z.abs ax >? 15000) || (Z.abs ay >? 15000) then pulse else [])).
Proof.
  intros Ha. unfold correctPosture, when, bind, emit, ret. rewrite Ha.
  destruct ((Z.abs ax >? 15000) || (Z.abs ay >? 15000)); reflexivity.
Qed.

Lemma correctPosture_state (e : Env) (s : State) :
  state_of (correctPosture e s) = s.
Proof.
  destruct (accel e) as [[ax ay] az] eqn:Ha.
  now rewrite (correctPosture_run e s ax ay az Ha).
Qed.

Lemma count_app (p : Event -> bool) (a b : list Event) :
  count p (a ++ b) = (count p a + count p b)%nat.
Proof. unfold count. now rewrite filter_app, length_app. Qed.

(** Only the two calls of [initializeWiFi] associate. *)
Lemma no_connection_in_sensors (e : Env) (s : State) :
  connection_attempts (trace_of (initializeSensors e s)) = 0%nat.
Proof.
  unfold initializeSensors, when.
  destruct (pox_begin e), (mpu_testConnection e); reflexivity.
Qed.

Lemma no_connection_in_collect (e : Env) (s : State) :
  connection_attempts (trace_of (collectAndLogData e s)) = 0%nat.
Proof.
  destruct (open_append e) eqn:Ho.
  - destruct (rtc_log e) as [t|] eqn:Hr.
    + now rewrite (collect_logged e s t Ho Hr).
    + now rewrite (collect_clock_unread e s Ho Hr).
  - now rewrite (collect_not_opened e s Ho).
Qed.

Lemma no_connection_in_posture (e : Env) (s : State) :
  connection_attempts (trace_of (correctPosture e s)) = 0%nat.
Proof.
  destruct (accel e) as [[ax ay] az] eqn:Ha.
  rewrite (correctPosture_run e s ax ay az Ha).
  destruct ((Z.abs ax >? 15000) || (Z.abs ay >? 15000)); reflexivity.
Qed.

Lemma one_connection_in_bootstrap (e : Env) (file : option string) :
  connection_attempts (trace_of (clock_bootstrap e (boot_state file))) = 1%nat.
Proof.
  rewrite clock_bootstrap_boot.
  destruct (autoConnect_boot e); [destruct (ntp_time e)|]; reflexivity.
Qed.

Lemma no_connection_in_sink (e : Env) (ls : list string) :
  connection_attempts (sink_trace e ls) = 0%nat.
Proof. induction ls as [|l ls IH]; [reflexivity|exact IH]. Qed.

Lemma no_connection_in_sendData (e : Env) (s : State) :
  connection_attempts (trace_of (sendData e s)) = 0%nat.
Proof.
  destruct (log_file s) as [c|] eqn:Hf.
  - destruct (open_read e) eqn:Ho.
    + rewrite (sendData_opened e s c Hf Ho). unfold trace_of, snd.
      unfold connection_attempts. rewrite !count_app.
      fold connection_attempts. rewrite no_connection_in_sink. reflexivity.
    + rewrite sendData_not_opened by (now right). reflexivity.
  - rewrite sendData_not_opened by (now left). reflexivity.
Qed.

(** The wake reaches the sync step with [isMorning] false and the log as
    the previous wake left it. *)
Lemma state_at_sync_eq (e : Env) (file : option string) :
  state_at_sync e file = mkState file false (autoConnect_boot e).
Proof. unfold state_at_sync. now rewrite clock_bootstrap_boot. Qed.

(** ** No step before [prepareForDeepSleep] arms the timer or sleeps *)





Lemma morning_sync_unread (e : Env) (s : State) :
  rtc_setup e = None ->
  morning_sync e s =
    (tt, s, [GetLocalTime None; SerialPrint "Failed to get time from RTC"]).
Proof. intros Hr. unfold morning_sync. rewrite Hr. reflexivity. Qed.




Lemma wake_not_mounted (e : Env) (file : option string) :
  spiffs_begin e = false ->
  wake e file =
    (Awake, boot_state file,
     [SerialBegin 115200; FsBegin false; SerialPrint "Failed to mount file system"]).
Proof. intros Hm. unfold wake, setup. rewrite Hm. reflexivity. Qed.



(** A morning wake on a log of two records: both are handed to the sink in
    order, the log is removed, and the record of this wake starts a new
    log. *)
Example wake_at_six :
  let r := wake (env_at (mk_tm 6 0 0) true true (0, 0, 16384)) (Some two_records) in
  value_of r = Asleep
  /\ sink_lines (trace_of r) = ["03:00:00,0.00,0.00,0.00"; "03:00:20,0.00,0.00,0.00"]
  /\ store_lines (log_file (state_of r)) = ["06:00:00,0.00,0.00,0.00"]
  /\ connection_attempts (trace_of r) = 2%nat.
Proof. vm_compute. repeat split. Qed.

(** A night wake on the same log: nothing is sent, one record is added. *)
Example wake_at_three :
  let r := wake (env_at (mk_tm 3 0 40) true true (0, 0, 16384)) (Some two_records) in
  value_of r = Asleep
  /\ sink_lines (trace_of r) = []
  /\ store_lines (log_file (state_of r)) =
       ["03:00:00,0.00,0.00,0.00"; "03:00:20,0.00,0.00,0.00"; "03:00:40,0.00,0.00,0.00"].
Proof. vm_compute. repeat split. Qed.

(** * The claims *)

(** C4.  When mounting the flash file system fails, [setup] prints the
    failure and returns: nothing else happens in that wake (no sensor
    initialisation, no association, no clock read, no acquisition, no
    posture check), the wake timer is not armed, deep sleep is not entered,
    and the chip stays awake in the empty [loop()]. *)
Theorem mount_failure_aborts (e : Env) (file : option string) :
  spiffs_begin e = false ->
  wake e file =
    (Awake, boot_state file,
     [SerialBegin 115200; FsBegin false; SerialPrint "Failed to mount file system"])
  /\ count is_sleep (trace_of (wake e file)) = 0%nat
  /\ log_file (state_of (wake e file)) = file.
Proof.
  intros Hm. rewrite (wake_not_mounted e file Hm). repeat split.
Qed.

Lemma mount_failure_aborts_witness :
  wake (env_at (mk_tm 7 0 0) false true (0, 0, 16384)) (Some two_records) =
    (Awake, boot_state (Some two_records),
     [SerialBegin 115200; FsBegin false; SerialPrint "Failed to mount file system"]).
Proof.
  apply (mount_failure_aborts (env_at (mk_tm 7 0 0) false true (0, 0, 16384))
           (Some two_records)).
  reflexivity.
Defined.




(** ** The clock bootstrap *)

Lemma bootstraps_wake (e : Env) (file : option string) :
  spiffs_begin e = true -> autoConnect_boot e = true ->
  bootstraps (trace_of (wake e file)) = true.
Proof.
  intros Hm Hc. rewrite (wake_mounted e file Hm). unfold trace_of at 1, snd.
  rewrite clock_bootstrap_boot, Hc. unfold trace_of at 2, snd.
  unfold bootstraps. rewrite !existsb_app.
  replace (existsb is_ConfigTime
             ([WiFiModeSta; AutoConnect "Sleep Portal" true] ++
              [SerialPrint "WiFi connected"; ConfigTime "pool.ntp.org" "time.nist.gov";
               GetLocalTime (ntp_time e);
               match ntp_time e with
               | Some t => SerialPrintTime t
               | None => SerialPrint "Failed to sync time with NTP"
               end; WiFiDisconnect])) with true by reflexivity.
  now rewrite !orb_true_r.
Qed.

(** C2, what the code does.  [wifiInitialized] is an ordinary global: every
    wake starts with it false, so in a run of wakes in which the flash
    mounts and the association succeeds, every wake sets the clock from
    the network again, not only the first: the number of bootstraps is
    the number of wakes. *)
Theorem bootstrap_on_every_wake (es : list Env) (file : option string) :
  Forall (fun e => spiffs_begin e = true /\ autoConnect_boot e = true) es ->
  List.length (fst (wakes es file)) = List.length es
  /\ bootstrap_count (fst (wakes es file)) = List.length es.
Proof.
  intros H. revert file. induction H as [|e es [Hm Hc] _ IH]; intros file.
  - split; reflexivity.
  - cbn [wakes].
    pose proof (bootstraps_wake e file Hm Hc) as Hb.
    pose proof (wake_mounted e file Hm) as Hw. cbv zeta in Hw.
    destruct (wake e file) as [[p s] t].
    assert (p = Asleep) as -> by congruence. clear Hw.
    change (bootstraps t = true) in Hb.
    destruct (IH (log_file s)) as [IH1 IH2].
    unfold bootstrap_count in *.
    destruct (wakes es (log_file s)) as [ts f]. cbn [fst filter] in *.
    rewrite Hb. cbn [List.length]. split; congruence.
Qed.

Lemma bootstrap_on_every_wake_witness :
  let e := env_at (mk_tm 3 0 0) true true (0, 0, 16384) in
  bootstrap_count (fst (wakes [e; e; e] None)) = 3%nat.
Proof.
  cbv zeta.
  apply (bootstrap_on_every_wake
           [env_at (mk_tm 3 0 0) true true (0, 0, 16384);
            env_at (mk_tm 3 0 0) true true (0, 0, 16384);
            env_at (mk_tm 3 0 0) true true (0, 0, 16384)] None).
  repeat constructor.
Defined.

(** ** The sync gate *)

Lemma connection_attempts_wake (e : Env) (file : option string) :
  spiffs_begin e = true ->
  connection_attempts (trace_of (wake e file)) =
    S (connection_attempts (trace_of (morning_sync e (state_at_sync e file)))).
Proof.
  intros Hm. rewrite (wake_mounted e file Hm). unfold trace_of at 1, snd.
  fold (state_at_sync e file).
  unfold connection_attempts. rewrite !count_app. fold connection_attempts.
  rewrite no_connection_in_sensors, one_connection_in_bootstrap,
    no_connection_in_collect, no_connection_in_posture.
  cbn. lia.
Qed.

(** C5.  In a wake that reaches the gate with a readable clock: at an hour
    equal to [MORNING_HOUR] the sync step attempts one association (and
    sends the log if it succeeds); at 59 minutes past the hour before, it
    attempts none and leaves the state as it was.  Counted over the whole
    wake, with the attempt of the clock bootstrap, that is two attempts
    against one. *)
Theorem sync_gate_boundary (e : Env) (file : option string) (t : tm) :
  spiffs_begin e = true ->
  rtc_setup e = Some t ->
  let s1 := state_at_sync e file in
  (tm_hour t = MORNING_HOUR ->
     connection_attempts (trace_of (morning_sync e s1)) = 1%nat
     /\ In (AutoConnect "Sleep Portal" (autoConnect_sync e)) (trace_of (morning_sync e s1))
     /\ connection_attempts (trace_of (wake e file)) = 2%nat)
  /\ (tm_hour t = MORNING_HOUR - 1 -> tm_min t = 59 ->
     connection_attempts (trace_of (morning_sync e s1)) = 0%nat
     /\ state_of (morning_sync e s1) = s1
     /\ connection_attempts (trace_of (wake e file)) = 1%nat).
Proof.
  intros Hm Hr. cbv zeta. split.
  - intros Hh.
    assert (connection_attempts (trace_of (morning_sync e (state_at_sync e file))) = 1%nat
            /\ In (AutoConnect "Sleep Portal" (autoConnect_sync e))
                  (trace_of (morning_sync e (state_at_sync e file)))) as [H1 H2].
    { rewrite (morning_sync_open e _ t Hr) by lia. unfold trace_of at 1 3, snd. split.
      - unfold connection_attempts. rewrite count_app. fold connection_attempts.
        destruct (autoConnect_sync e); [|reflexivity].
        change (SerialPrint "WiFi connected" :: ?l)
          with ([SerialPrint "WiFi connected"] ++ l).
        unfold connection_attempts. rewrite count_app. fold connection_attempts.
        rewrite no_connection_in_sendData. reflexivity.
      - apply in_or_app. left. cbn. auto. }
    repeat split; auto.
    rewrite (connection_attempts_wake e file Hm), H1. reflexivity.
  - intros Hh _.
    assert (morning_sync e (state_at_sync e file)
            = (tt, state_at_sync e file,
               [GetLocalTime (Some t);
                SerialPrint (printf (libc e) current_time_format
                               [VInt (tm_hour t); VInt (tm_min t); VInt (tm_sec t)])])) as E.
    { apply morning_sync_closed; [assumption|unfold MORNING_HOUR in *; lia|].
      now rewrite state_at_sync_eq. }
    rewrite (connection_attempts_wake e file Hm), E. repeat split.
Qed.

Lemma sync_gate_boundary_witness :
  connection_attempts
    (trace_of (wake (env_at (mk_tm 6 0 0) true true (0, 0, 16384)) (Some two_records)))
  = 2%nat
  /\ connection_attempts
       (trace_of (wake (env_at (mk_tm 5 59 0) true true (0, 0, 16384)) (Some two_records)))
     = 1%nat.
Proof.
  split.
  - apply (sync_gate_boundary (env_at (mk_tm 6 0 0) true true (0, 0, 16384))
             (Some two_records) (mk_tm 6 0 0)); reflexivity.
  - apply (sync_gate_boundary (env_at (mk_tm 5 59 0) true true (0, 0, 16384))
             (Some two_records) (mk_tm 5 59 0)); reflexivity.
Defined.




(** ** Posture feedback *)

(** C8.  [correctPosture] reads the acceleration and compares the
    magnitudes of [ax] and [ay] with 15000: when one of them is above, the
    motor is switched on, held for 500 ms and switched off, once; when
    neither is, the motor is not touched.  [az] plays no part.  So a
    magnitude of 16000 on one of the two axes gives one pulse, and a
    magnitude of 10000 (the other axis not above the threshold) gives
    none. *)
Theorem posture_threshold (e : Env) (s : State) (ax ay az : Z) :
  accel e = (ax, ay, az) ->
  let t := trace_of (correctPosture e s) in
  state_of (correctPosture e s) = s
  /\ (Z.abs ax > 15000 \/ Z.abs ay > 15000 ->
      t = GetAcceleration :: pulse /\ count is_motor_on t = 1%nat)
  /\ (Z.abs ax <= 15000 /\ Z.abs ay <= 15000 ->
      t = [GetAcceleration] /\ count is_motor_on t = 0%nat)
  /\ (Z.abs ax = 16000 \/ Z.abs ay = 16000 -> count is_motor_on t = 1%nat)
  /\ (Z.abs ax = 10000 /\ Z.abs ay <= 15000 \/ Z.abs ay = 10000 /\ Z.abs ax <= 15000 ->
      count is_motor_on t = 0%nat).
Proof.
  intros Ha. cbv zeta. rewrite (correctPosture_run e s ax ay az Ha).
  unfold state_of, trace_of. cbn [fst snd].
  assert (Z.abs ax > 15000 \/ Z.abs ay > 15000 ->
          (Z.abs ax >? 15000) || (Z.abs ay >? 15000) = true) as Hup.
  { intros [H|H]; apply orb_true_iff; [left|right]; lia. }
  assert (Z.abs ax <= 15000 /\ Z.abs ay <= 15000 ->
          (Z.abs ax >? 15000) || (Z.abs ay >? 15000) = false) as Hdown.
  { intros [H1 H2]. apply orb_false_iff. split; lia. }
  split; [reflexivity|]. split; [|split; [|split]].
  - intros H. rewrite (Hup H). split; reflexivity.
  - intros H. rewrite (Hdown H). split; reflexivity.
  - intros H. rewrite Hup by lia. reflexivity.
  - intros H. rewrite Hdown by lia. reflexivity.
Qed.

Lemma posture_threshold_witness :
  count is_motor_on
    (trace_of (correctPosture (env_at (mk_tm 2 0 0) true true (-16000, 0, 0))
                 (boot_state None))) = 1%nat
  /\ count is_motor_on
       (trace_of (correctPosture (env_at (mk_tm 2 0 0) true true (10000, 0, 0))
                    (boot_state None))) = 0%nat.
Proof.
  split.
  - apply (posture_threshold (env_at (mk_tm 2 0 0) true true (-16000, 0, 0))
             (boot_state None) (-16000) 0 0); [reflexivity|].
    left. reflexivity.
  - apply (posture_threshold (env_at (mk_tm 2 0 0) true true (10000, 0, 0))
             (boot_state None) 10000 0 0); [reflexivity|].
    left. split; [reflexivity|]. cbn. lia.
Defined.

(** ** Acquisition *)

(** C9, where the code departs from it.  [collectAndLogData] never reads
    the validity flags: with any flags it does the same, and the one line
    it appends comes from a [printf] call whose arguments are the clock,
    the estimator's [heartRate] and [spo2] as returned, and the
    temperature.  But [heartRate] and [spo2] are handed to [%.2f]
    conversions (the defect of C3): the heart-rate and SpO2 fields of the
    appended record are what the library writes for conversions out of
    step with their arguments, not the two values. *)
Theorem record_fields_out_of_step (e : Env) (s : State) (t : tm)
    (validSpO2 validHeartRate : Z) :
  open_append e = true ->
  rtc_log e = Some t ->
  let args := log_args t (est_heartRate e) (est_spo2 e) (tempC e) in
  let r := collectAndLogData (with_validity e validSpO2 validHeartRate) s in
  r = collectAndLogData e s
  /\ count is_FsPrint (trace_of r) = 1%nat
  /\ In (FsPrint (printf (libc e) log_format args)) (trace_of r)
  /\ mismatches log_format args
     = [(F2, VInt (est_heartRate e)); (F2, VInt (est_spo2 e))]
  /\ log_file (state_of r) =
       Some (content_of (log_file s)
             ++ (fmt_d02 (tm_hour t) ++ ":" ++ fmt_d02 (tm_min t) ++ ":"
                 ++ fmt_d02 (tm_sec t)
                 ++ "," ++ stray_text (libc e) log_format args 3
                 ++ "," ++ stray_text (libc e) log_format args 4
                 ++ "," ++ stray_text (libc e) log_format args 5 ++ nl))%string.
Proof.
  intros Ho Hr. cbv zeta.
  assert (collectAndLogData (with_validity e validSpO2 validHeartRate) s
          = collectAndLogData e s) as E by reflexivity.
  rewrite E, (collect_logged e s t Ho Hr). unfold trace_of, state_of. cbn [fst snd].
  split; [reflexivity|]. split; [reflexivity|].
  split; [cbn; unfold log_line; auto 10|].
  split; [reflexivity|].
  cbn [log_file]. rewrite log_line_record. unfold log_record. cbv zeta.
  repeat (rewrite ?string_app_assoc; cbn [String.append]). reflexivity.
Qed.

Lemma record_fields_out_of_step_witness :
  est_heartRate (env_at (mk_tm 2 0 0) true true (0, 0, 16384)) = 72
  /\ est_spo2 (env_at (mk_tm 2 0 0) true true (0, 0, 16384)) = 98
  /\ log_file (state_of (collectAndLogData (env_at (mk_tm 2 0 0) true true (0, 0, 16384))
                           (boot_state None)))
     = Some ("02:00:00,0.00,0.00,0.00" ++ nl)%string.
Proof.
  split; [reflexivity|]. split; [reflexivity|].
  pose proof (record_fields_out_of_step (env_at (mk_tm 2 0 0) true true (0, 0, 16384))
                (boot_state None) (mk_tm 2 0 0) 1 1 eq_refl eq_refl) as H.
  cbv zeta in H. destruct H as (_ & _ & _ & _ & H). exact H.
Defined.



(** ** Draining the log *)

Lemma sink_lines_app (a b : list Event) :
  sink_lines (a ++ b) = sink_lines a ++ sink_lines b.
Proof.
  induction a as [|ev a IH]; [reflexivity|].
  destruct ev; cbn; rewrite ?IH; reflexivity.
Qed.

Lemma sink_lines_sink_trace (e : Env) (ls : list string) :
  sink_lines (sink_trace e ls) = ls.
Proof. induction ls as [|l ls IH]; cbn; [reflexivity|]. f_equal. exact IH. Qed.

Lemma sendData_opened_sink (e : Env) (s : State) (content : string) :
  log_file s = Some content -> open_read e = true ->
  sink_lines (trace_of (sendData e s)) = read_lines content.
Proof.
  intros Hf Ho. rewrite (sendData_opened e s content Hf Ho).
  unfold trace_of. cbn [snd].
  rewrite !sink_lines_app, sink_lines_sink_trace. cbn. apply app_nil_r.
Qed.

(** C1, what the code does.  [sendData] reads the lines of the log in the
    order they were written and hands each, in that order, to the sink;
    then it closes the file and removes it, without looking at what the
    sink returned: when the log file opens, the store is empty afterwards,
    after an accepted and after a refused delivery alike.  Only when the
    file cannot be opened (it does not exist) is nothing sent and the
    store left as it was. *)
Theorem sendData_clears_when_opened (e : Env) (s : State) :
  (forall content, log_file s = Some content -> open_read e = true ->
     sink_lines (trace_of (sendData e s)) = read_lines content
     /\ trace_of (sendData e s) =
          [SerialPrint "Sending data..."; FsOpen "r" true]
          ++ sink_trace e (read_lines content) ++ [FsClose; FsRemove]
     /\ log_file (state_of (sendData e s)) = None
     /\ store_lines (log_file (state_of (sendData e s))) = [])
  /\ (log_file s = None \/ open_read e = false ->
      sink_lines (trace_of (sendData e s)) = []
      /\ state_of (sendData e s) = s).
Proof.
  split.
  - intros content Hf Ho. split; [now apply sendData_opened_sink|].
    rewrite (sendData_opened e s content Hf Ho). repeat split.
  - intros H. rewrite (sendData_not_opened e s H). split; reflexivity.
Qed.

Lemma sendData_clears_when_opened_witness :
  sink_lines (trace_of (sendData (env_sink_down (mk_tm 6 0 0)) (boot_state (Some two_records))))
    = ["03:00:00,0.00,0.00,0.00"; "03:00:20,0.00,0.00,0.00"]
  /\ log_file (state_of (sendData (env_sink_down (mk_tm 6 0 0))
                           (boot_state (Some two_records)))) = None
  /\ state_of (sendData (env_sink_down (mk_tm 6 0 0)) (boot_state None)) = boot_state None.
Proof.
  destruct (sendData_clears_when_opened (env_sink_down (mk_tm 6 0 0))
              (boot_state (Some two_records))) as [H _].
  destruct (H two_records eq_refl eq_refl) as (H1 & _ & H3 & _).
  destruct (sendData_clears_when_opened (env_sink_down (mk_tm 6 0 0))
              (boot_state None)) as [_ H'].
  destruct (H' (or_introl eq_refl)) as [_ H5].
  split; [rewrite H1; reflexivity|]. split; [exact H3|exact H5].
Defined.

(** C1 as stated fails: the sink refuses every line of a log of two
    records, and the log is removed all the same. *)
Lemma sendData_clears_after_refused_delivery :
  let e := env_sink_down (mk_tm 6 0 0) in
  let s := boot_state (Some two_records) in
  store_lines (log_file s) = ["03:00:00,0.00,0.00,0.00"; "03:00:20,0.00,0.00,0.00"]
  /\ delivery_ok e (store_lines (log_file s)) = false
  /\ trace_of (sendData e s) =
       [SerialPrint "Sending data..."; FsOpen "r" true;
        SinkLine "03:00:00,0.00,0.00,0.00" false;
        SinkLine "03:00:20,0.00,0.00,0.00" false;
        FsClose; FsRemove]
  /\ log_file (state_of (sendData e s)) = None
  /\ store_lines (log_file (state_of (sendData e s))) <> store_lines (log_file s).
Proof.
  cbv zeta. repeat split. cbn. discriminate.
Qed.

(** ** The text of a record *)

(** C3, where the code departs from it.  The call
    [logFile.printf("%02d:%02d:%02d,%.2f,%.2f,%.2f\n", ...)] passes the
    [int32_t] values [heartRate] and [spo2] to two [%.2f] conversions,
    which take a [double]: of the six conversions, the fourth and the
    fifth receive an argument of the wrong type, whatever the values are.
    The time is written as the format asks; from the heart-rate field on,
    the line holds what the library writes for conversions out of step
    with their arguments, not the decimal rendering of the values. *)
Theorem log_printf_mismatch (lc : Libc)
    (t : tm) (heartRate spo2 : Z) (temperature : float) :
  let args := log_args t heartRate spo2 temperature in
  mismatches log_format args = [(F2, VInt heartRate); (F2, VInt spo2)]
  /\ log_line lc t heartRate spo2 temperature =
       (fmt_d02 (tm_hour t) ++ ":" ++ fmt_d02 (tm_min t) ++ ":" ++ fmt_d02 (tm_sec t)
        ++ "," ++ stray_text lc log_format args 3
        ++ "," ++ stray_text lc log_format args 4
        ++ "," ++ stray_text lc log_format args 5 ++ nl)%string.
Proof.
  cbv zeta. split.
  - reflexivity.
  - rewrite log_line_record. unfold log_record. cbv zeta.
    repeat (rewrite ?string_app_assoc; cbn [String.append]). reflexivity.
Qed.

(** What does hold of the round trip: the lines appended by successive
    acquisitions are read back by [sendData] one by one, in the order of
    the appends, each as it was written. *)
Lemma append_all_content (es : list Env) (s : State) (ls : list string) :
  Forall (fun e => open_append e = true /\ rtc_log e <> None) es ->
  content_of (log_file s) = file_of_lines ls ->
  content_of (log_file (append_all es s)) = file_of_lines (ls ++ map record_of es).
Proof.
  intros H. revert s ls. induction H as [|e es [Ho Hr] _ IH]; intros s ls Hs.
  - cbn. now rewrite app_nil_r.
  - cbn [append_all map].
    destruct (rtc_log e) as [t|] eqn:Ht; [|congruence].
    rewrite (IH _ (ls ++ [record_of e])).
    + now rewrite <- app_assoc.
    + rewrite (collect_logged e s t Ho Ht). unfold state_of. cbn [fst snd log_file content_of].
      rewrite Hs, log_line_record, file_of_lines_app. unfold record_of. rewrite Ht.
      reflexivity.
Qed.

Lemma append_then_drain (es : list Env) (e' : Env) :
  Forall (fun e => open_append e = true /\ rtc_log e <> None) es ->
  Forall (fun e => clean (libc e)) es ->
  open_read e' = true ->
  sink_lines (trace_of (sendData e' (append_all es (boot_state None)))) = map record_of es.
Proof.
  intros H Hc Ho.
  pose proof (append_all_content es (boot_state None) [] H eq_refl) as E.
  cbn [app] in E.
  assert (forallb no_newline (map record_of es) = true) as Hn.
  { clear E. induction es as [|e es IH]; [reflexivity|].
    inversion H as [|? ? [_ Hr] H']; inversion Hc as [|? ? Hce Hc']; subst.
    cbn. rewrite IH by assumption. rewrite andb_true_r.
    unfold record_of. destruct (rtc_log e); [|congruence].
    now apply no_newline_log_record. }
  destruct (log_file (append_all es (boot_state None))) as [c|] eqn:Hf.
  - rewrite (sendData_opened_sink e' _ c Hf Ho).
    cbn [content_of] in E. rewrite E. now apply read_lines_file_of_lines.
  - rewrite (sendData_not_opened e' _ (or_introl Hf)).
    cbn [content_of] in E. destruct es as [|e es]; [reflexivity|].
    cbn in E. destruct (record_of e); discriminate E.
Qed.

(** * Further properties of the firmware *)

(** ** What one wake does to the log and to the sink *)

(** Reading the state and the trace off an explicit result. *)
Ltac project :=
  repeat match goal with
    | |- context [trace_of (?a, ?b, ?c)] => change (trace_of (a, b, c)) with c
    | |- context [state_of (?a, ?b, ?c)] => change (state_of (a, b, c)) with b
    | |- context [value_of (?a, ?b, ?c)] => change (value_of (a, b, c)) with a
    end.

Lemma collect_content (e : Env) (s : State) :
  content_of (log_file (state_of (collectAndLogData e s))) =
    (content_of (log_file s)
     ++ (if open_append e then
           match rtc_log e with
           | Some t => log_line (libc e) t (est_heartRate e) (est_spo2 e) (tempC e)
           | None => EmptyString
           end
         else EmptyString))%string.
Proof.
  destruct (open_append e) eqn:Ho.
  - destruct (rtc_log e) as [t|] eqn:Hr.
    + now rewrite (collect_logged e s t Ho Hr).
    + rewrite (collect_clock_unread e s Ho Hr). unfold state_of. cbn.
      now rewrite string_app_nil_r.
  - rewrite (collect_not_opened e s Ho). unfold state_of. cbn.
    now rewrite string_app_nil_r.
Qed.

Lemma sink_lines_collect (e : Env) (s : State) :
  sink_lines (trace_of (collectAndLogData e s)) = [].
Proof.
  destruct (open_append e) eqn:Ho.
  - destruct (rtc_log e) as [t|] eqn:Hr.
    + now rewrite (collect_logged e s t Ho Hr).
    + now rewrite (collect_clock_unread e s Ho Hr).
  - now rewrite (collect_not_opened e s Ho).
Qed.

Lemma sink_lines_posture (e : Env) (s : State) :
  sink_lines (trace_of (correctPosture e s)) = [].
Proof.
  destruct (accel e) as [[ax ay] az] eqn:Ha.
  rewrite (correctPosture_run e s ax ay az Ha).
  destruct ((Z.abs ax >? 15000) || (Z.abs ay >? 15000)); reflexivity.
Qed.

Lemma sink_lines_sensors (e : Env) (s : State) :
  sink_lines (trace_of (initializeSensors e s)) = [].
Proof.
  unfold initializeSensors, when.
  destruct (pox_begin e), (mpu_testConnection e); reflexivity.
Qed.

Lemma sink_lines_bootstrap (e : Env) (file : option string) :
  sink_lines (trace_of (clock_bootstrap e (boot_state file))) = [].
Proof.
  rewrite clock_bootstrap_boot.
  destruct (autoConnect_boot e); [destruct (ntp_time e)|]; reflexivity.
Qed.

(** The sync step on the state of a wake: it empties the log exactly when
    the gate is open, the association succeeds and the log opens, and
    then the sink has received the lines of the log. *)
Lemma sync_step (e : Env) (file : option string) (w : bool) :
  let s1 := mkState file false w in
  let d := gate_open e && autoConnect_sync e && open_read e && exists_file file in
  log_file (state_of (morning_sync e s1)) = (if d then None else file)
  /\ sink_lines (trace_of (morning_sync e s1)) =
       (if d then read_lines (content_of file) else []).
Proof.
  cbv zeta. unfold gate_open.
  destruct (rtc_setup e) as [t|] eqn:Hr.
  - destruct (Z_lt_le_dec (tm_hour t) MORNING_HOUR) as [Hlt|Hge].
    + rewrite (morning_sync_closed e (mkState file false w) t Hr Hlt eq_refl).
      assert ((tm_hour t >=? MORNING_HOUR) = false) as -> by lia.
      split; reflexivity.
    + rewrite (morning_sync_open e _ t Hr Hge).
      assert ((tm_hour t >=? MORNING_HOUR) = true) as -> by lia.
      cbn [andb log_file wifiInitialized].
      destruct (autoConnect_sync e); [|split; reflexivity].
      cbn [andb]. project. cbn [log_file].
      rewrite sink_lines_app.
      change (sink_lines (SerialPrint "WiFi connected" :: ?l)) with (sink_lines l).
      cbn [sink_lines app].
      destruct file as [c|].
      * destruct (open_read e) eqn:Ho.
        -- rewrite (sendData_opened_sink e (mkState (Some c) true w) c eq_refl Ho).
           rewrite (sendData_opened e (mkState (Some c) true w) c eq_refl Ho).
           split; reflexivity.
        -- rewrite (sendData_not_opened e (mkState (Some c) true w) (or_intror Ho)).
           split; reflexivity.
      * rewrite (sendData_not_opened e (mkState None true w) (or_introl eq_refl)).
        rewrite andb_false_r. split; reflexivity.
  - rewrite (morning_sync_unread e _ Hr). split; reflexivity.
Qed.

(** The log after a wake. *)
Lemma wake_log_content (e : Env) (file : option string) :
  content_of (log_file (state_of (wake e file))) =
    ((if drains e file then EmptyString else content_of file) ++ appended e)%string.
Proof.
  unfold drains, appended.
  destruct (spiffs_begin e) eqn:Hm.
  - rewrite (wake_mounted e file Hm). unfold state_of at 1. cbn [fst snd andb].
    rewrite correctPosture_state, collect_content.
    fold (state_at_sync e file). rewrite state_at_sync_eq.
    destruct (sync_step e file (autoConnect_boot e)) as [Hl _]. cbv zeta in Hl.
    rewrite Hl.
    destruct (gate_open e && autoConnect_sync e && open_read e && exists_file file);
      reflexivity.
  - rewrite (wake_not_mounted e file Hm). unfold state_of. cbn.
    now rewrite string_app_nil_r.
Qed.

(** X1.  The log after a wake, in closed form: the text the log held
    before the wake, unless the wake reached [sendData] and the log
    opened (then that text is gone), followed by the line this wake's
    acquisition wrote, if it wrote one.  Nothing else ever changes the
    log. *)
Theorem log_update_law (e : Env) (file : option string) :
  content_of (log_file (state_of (wake e file))) =
    ((if drains e file then EmptyString else content_of file) ++ appended e)%string.
Proof.
  unfold drains, appended.
  destruct (spiffs_begin e) eqn:Hm.
  - rewrite (wake_mounted e file Hm). unfold state_of at 1. cbn [fst snd andb].
    rewrite correctPosture_state, collect_content.
    fold (state_at_sync e file). rewrite state_at_sync_eq.
    destruct (sync_step e file (autoConnect_boot e)) as [Hl _]. cbv zeta in Hl.
    rewrite Hl.
    destruct (gate_open e && autoConnect_sync e && open_read e && exists_file file);
      reflexivity.
  - rewrite (wake_not_mounted e file Hm). unfold state_of. cbn.
    now rewrite string_app_nil_r.
Qed.

(** The lines a wake hands to the sink. *)
Lemma wake_sink_lines (e : Env) (file : option string) :
  sink_lines (trace_of (wake e file)) =
    (if drains e file then read_lines (content_of file) else []).
Proof.
  unfold drains.
  destruct (spiffs_begin e) eqn:Hm.
  - rewrite (wake_mounted e file Hm). unfold trace_of at 1. cbn [fst snd andb].
    fold (state_at_sync e file). rewrite state_at_sync_eq.
    rewrite !sink_lines_app, sink_lines_sensors, sink_lines_bootstrap,
      sink_lines_collect, sink_lines_posture.
    destruct (sync_step e file (autoConnect_boot e)) as [_ Hs]. cbv zeta in Hs.
    rewrite Hs. cbn. now rewrite app_nil_r.
  - rewrite (wake_not_mounted e file Hm). reflexivity.
Qed.

(** X2.  The sink in a wake, in closed form: it receives the lines of the
    log as the wake found it, in their order, when the wake reached
    [sendData] and the log opened; otherwise it receives nothing. *)
Theorem sink_law (e : Env) (file : option string) :
  sink_lines (trace_of (wake e file)) =
    (if drains e file then read_lines (content_of file) else []).
Proof.
  unfold drains.
  destruct (spiffs_begin e) eqn:Hm.
  - rewrite (wake_mounted e file Hm). unfold trace_of at 1. cbn [fst snd andb].
    fold (state_at_sync e file). rewrite state_at_sync_eq.
    rewrite !sink_lines_app, sink_lines_sensors, sink_lines_bootstrap,
      sink_lines_collect, sink_lines_posture.
    destruct (sync_step e file (autoConnect_boot e)) as [_ Hs]. cbv zeta in Hs.
    rewrite Hs. cbn. now rewrite app_nil_r.
  - rewrite (wake_not_mounted e file Hm). reflexivity.
Qed.

(** ** Records over a run of wakes *)

Lemma store_lines_content (f : option string) :
  store_lines f = read_lines (content_of f).
Proof. destruct f; reflexivity. Qed.

Lemma appended_records (e : Env) :
  appended e = file_of_lines (records_of e).
Proof.
  unfold appended, records_of.
  destruct (spiffs_begin e && open_append e); [|reflexivity].
  destruct (rtc_log e) as [t|]; [|reflexivity].
  rewrite log_line_record. reflexivity.
Qed.

Lemma no_newline_records (e : Env) :
  clean (libc e) -> forallb no_newline (records_of e) = true.
Proof.
  intros Hc. unfold records_of.
  destruct (spiffs_begin e && open_append e); [|reflexivity].
  destruct (rtc_log e) as [t|]; [|reflexivity].
  cbn. now rewrite no_newline_log_record.
Qed.

Lemma wake_mounted_asleep (e : Env) (file : option string) :
  spiffs_begin e = true -> value_of (wake e file) = Asleep.
Proof. intros Hm. now rewrite (wake_mounted e file Hm). Qed.

(** X3.  Records are conserved over a run.  Start from a log of whole
    lines and run any sequence of wakes whose flash mounts: at the end,
    the lines handed to the sink so far, followed by the lines still in the
    log, are exactly the lines the log started with followed by the
    records the wakes wrote, in the order they were written.  No record is
    dropped, repeated or reordered between the log and the sink, whichever
    wakes sync and whichever fail to. *)
Theorem records_conserved (es : list Env) (file : option string) (ls : list string) :
  Forall (fun e => spiffs_begin e = true /\ clean (libc e)) es ->
  content_of file = file_of_lines ls ->
  forallb no_newline ls = true ->
  run_sink (fst (wakes es file)) ++ store_lines (snd (wakes es file))
  = ls ++ List.concat (map records_of es).
Proof.
  intros H. revert file ls.
  induction H as [|e es [Hm Hc] _ IH]; intros file ls Hf Hls.
  - cbn. rewrite app_nil_r, store_lines_content, Hf.
    now apply read_lines_file_of_lines.
  - cbn [wakes map List.concat].
    pose proof (wake_log_content e file) as Hlog.
    pose proof (wake_sink_lines e file) as Hsink.
    pose proof (wake_mounted_asleep e file Hm) as Hp.
    destruct (wake e file) as [[p s] t].
    change (p = Asleep) in Hp. subst p.
    change (content_of (log_file s) =
            ((if drains e file then EmptyString else content_of file) ++ appended e)%string)
      in Hlog.
    change (sink_lines t = (if drains e file then read_lines (content_of file) else []))
      in Hsink.
    rewrite appended_records, Hf in Hlog.
    rewrite Hf, (read_lines_file_of_lines ls Hls) in Hsink.
    pose proof (no_newline_records e Hc) as Hr.
    specialize (IH (log_file s) ((if drains e file then [] else ls) ++ records_of e)).
    destruct (wakes es (log_file s)) as [ts f]. cbn [fst snd] in *.
    unfold run_sink in *. cbn [map List.concat]. rewrite Hsink.
    rewrite <- app_assoc, IH.
    + destruct (drains e file); cbn [app]; now rewrite <- ?app_assoc.
    + rewrite Hlog, file_of_lines_app. now destruct (drains e file).
    + rewrite forallb_app, Hr. destruct (drains e file); cbn; now rewrite ?Hls.
Qed.

Lemma records_conserved_witness :
  let night := env_at (mk_tm 5 59 40) true true (0, 0, 16384) in
  let morning := env_at (mk_tm 6 0 0) true true (0, 0, 16384) in
  run_sink (fst (wakes [night; morning; morning] (Some two_records)))
  ++ store_lines (snd (wakes [night; morning; morning] (Some two_records)))
  = ["03:00:00,0.00,0.00,0.00"; "03:00:20,0.00,0.00,0.00"]
    ++ List.concat (map records_of [night; morning; morning]).
Proof.
  cbv zeta.
  apply (records_conserved
           [env_at (mk_tm 5 59 40) true true (0, 0, 16384);
            env_at (mk_tm 6 0 0) true true (0, 0, 16384);
            env_at (mk_tm 6 0 0) true true (0, 0, 16384)]
           (Some two_records)
           ["03:00:00,0.00,0.00,0.00"; "03:00:20,0.00,0.00,0.00"]).
  - repeat constructor.
  - reflexivity.
  - reflexivity.
Defined.

(** ** What each function touches *)

Lemma trace_bind {A B} (m : M A) (f : A -> M B) (s : State) :
  trace_of (bind m f s) =
    trace_of (m s) ++ trace_of (f (value_of (m s)) (state_of (m s))).
Proof.
  unfold bind, trace_of, value_of, state_of.
  destruct (m s) as [[a s1] t1]. cbn [fst snd].
  destruct (f a s1) as [[b s2] t2]. reflexivity.
Qed.

Lemma only_app (ds : list Device) (a b : list Event) :
  only ds (a ++ b) = only ds a && only ds b.
Proof. apply forallb_app. Qed.

Lemma only_bind {A B} (ds : list Device) (m : M A) (f : A -> M B) (s : State) :
  only ds (trace_of (m s)) = true ->
  (forall a s', only ds (trace_of (f a s')) = true) ->
  only ds (trace_of (bind m f s)) = true.
Proof. intros Hm Hf. now rewrite trace_bind, only_app, Hm, Hf. Qed.

Lemma only_when (ds : list Device) (b : bool) (m : M unit) (s : State) :
  only ds (trace_of (m s)) = true -> only ds (trace_of (when b m s)) = true.
Proof. destruct b; [trivial|reflexivity]. Qed.

Lemma only_sink_trace (ds : list Device) (e : Env) (ls : list string) :
  among ds (SinkLine EmptyString true) = true -> only ds (sink_trace e ls) = true.
Proof.
  intros H. induction ls as [|l ls IH]; [reflexivity|].
  unfold only, sink_trace in *. cbn [map forallb]. rewrite IH, andb_true_r. exact H.
Qed.

(** Decomposing a footprint goal along the structure of the code. *)
Ltac footprint :=
  repeat first
    [ reflexivity
    | apply only_bind; [|intros ? ?]
    | apply only_when
    | match goal with
      | |- only _ (trace_of ((if ?b then _ else _) _)) = true => destruct b
      | |- only _ (trace_of (match ?x with Some _ => _ | None => _ end _)) = true =>
          destruct x
      end ].

Lemma sensors_footprint (e : Env) (s : State) :
  only [Sensors; Console] (trace_of (initializeSensors e s)) = true.
Proof. unfold initializeSensors. footprint. Qed.

Lemma initializeWiFi_footprint (c : bool) (s : State) :
  only [Radio; Console] (trace_of (initializeWiFi c s)) = true.
Proof. unfold initializeWiFi. footprint. Qed.

Lemma configureTime_footprint (e : Env) (s : State) :
  only [Clock; Console] (trace_of (configureTime e s)) = true.
Proof. unfold configureTime. footprint. Qed.

Lemma only_more (ds ds' : list Device) (t : list Event) :
  (forall d, existsb (Device_eqb d) ds = true -> existsb (Device_eqb d) ds' = true) ->
  only ds t = true -> only ds' t = true.
Proof.
  intros Hsub. unfold only, among. rewrite !forallb_forall.
  intros H ev Hin. apply Hsub, H, Hin.
Qed.

(** Inclusion of two explicit lists of devices. *)
Ltac more := intros d; destruct d; cbn; intros Hd; (reflexivity || discriminate Hd).

Lemma bootstrap_footprint (e : Env) (s : State) :
  only [Radio; Clock; Console] (trace_of (clock_bootstrap e s)) = true.
Proof.
  unfold clock_bootstrap. apply only_bind; [reflexivity|intros s0 s'].
  apply only_when. apply only_bind.
  - apply (only_more [Radio; Console]); [more|apply initializeWiFi_footprint].
  - intros c s2. destruct c; [|reflexivity].
    apply only_bind; [|intros ? ?; footprint].
    apply (only_more [Clock; Console]); [more|apply configureTime_footprint].
Qed.

Lemma sendData_footprint (e : Env) (s : State) :
  only [Flash; Sink; Console] (trace_of (sendData e s)) = true.
Proof.
  destruct (log_file s) as [c|] eqn:Hf.
  - destruct (open_read e) eqn:Ho.
    + rewrite (sendData_opened e s c Hf Ho). project.
      rewrite !only_app, only_sink_trace; reflexivity.
    + now rewrite (sendData_not_opened e s (or_intror Ho)).
  - now rewrite (sendData_not_opened e s (or_introl Hf)).
Qed.

Lemma sync_footprint (e : Env) (s : State) :
  only [Clock; Radio; Flash; Sink; Console] (trace_of (morning_sync e s)) = true.
Proof.
  unfold morning_sync. apply only_bind; [reflexivity|intros ? ?].
  destruct (rtc_setup e) as [t|]; [|reflexivity].
  apply only_bind; [reflexivity|intros ? ?].
  apply only_bind; [apply only_when; reflexivity|intros ? ?].
  apply only_bind; [reflexivity|intros s1 ?].
  apply only_when. apply only_bind.
  - apply (only_more [Radio; Console]); [more|apply initializeWiFi_footprint].
  - intros c ?. apply only_when. apply only_bind; [|intros ? ?; reflexivity].
    apply (only_more [Flash; Sink; Console]); [more|apply sendData_footprint].
Qed.

Lemma collect_footprint (e : Env) (s : State) :
  only [Sensors; Flash; Clock; Console] (trace_of (collectAndLogData e s)) = true.
Proof.
  destruct (open_append e) eqn:Ho.
  - destruct (rtc_log e) as [t|] eqn:Hr.
    + now rewrite (collect_logged e s t Ho Hr).
    + now rewrite (collect_clock_unread e s Ho Hr).
  - now rewrite (collect_not_opened e s Ho).
Qed.

Lemma posture_footprint (e : Env) (s : State) :
  only [Sensors; Motor] (trace_of (correctPosture e s)) = true.
Proof.
  destruct (accel e) as [[ax ay] az] eqn:Ha.
  rewrite (correctPosture_run e s ax ay az Ha).
  destruct ((Z.abs ax >? 15000) || (Z.abs ay >? 15000)); reflexivity.
Qed.

(** X4.  What each function of the sketch can touch, in any state and
    with any inputs: [initializeSensors] only the sensors,
    the clock bootstrap only the radio and the clock, [sendData] only the
    flash and the sink, the sync step the clock, the radio, the flash and
    the sink, [collectAndLogData] the sensors, the flash and the clock,
    [correctPosture] the accelerometer and the motor, and
    [prepareForDeepSleep] only the sleep controls (each may also print on
    the console).  So the motor is driven by [correctPosture] alone, the
    sink is fed by [sendData] alone, the radio is never used while
    sampling or logging, and nothing but [prepareForDeepSleep] arms the
    timer or sleeps. *)
Theorem footprints (e : Env) (s : State) :
  only [Sensors; Console] (trace_of (initializeSensors e s)) = true
  /\ only [Radio; Clock; Console] (trace_of (clock_bootstrap e s)) = true
  /\ only [Flash; Sink; Console] (trace_of (sendData e s)) = true
  /\ only [Clock; Radio; Flash; Sink; Console] (trace_of (morning_sync e s)) = true
  /\ only [Sensors; Flash; Clock; Console] (trace_of (collectAndLogData e s)) = true
  /\ only [Sensors; Motor] (trace_of (correctPosture e s)) = true
  /\ only [Sleep; Console] (trace_of (prepareForDeepSleep s)) = true.
Proof.
  repeat split;
    auto using sensors_footprint, bootstrap_footprint, sendData_footprint,
      sync_footprint, collect_footprint, posture_footprint.
Qed.

(** ** Counting over a whole wake *)

Lemma count_outside (ds : list Device) (p : Event -> bool) (t : list Event) :
  only ds t = true ->
  (forall ev, among ds ev = true -> p ev = false) ->
  count p t = 0%nat.
Proof.
  intros Ho Hp. induction t as [|ev t IH]; [reflexivity|].
  unfold only in Ho. cbn [forallb] in Ho. apply andb_true_iff in Ho as [H1 H2].
  unfold count in *. cbn [filter]. rewrite (Hp ev H1). now apply IH.
Qed.

(** An action among the devices [ds] does not satisfy [p]. *)
Ltac confined :=
  let ev := fresh "ev" in
  let H := fresh "H" in
  intros ev H; destruct ev; cbn in H; try discriminate H; reflexivity.

Lemma count_wake (p : Event -> bool) (e : Env) (file : option string) :
  spiffs_begin e = true ->
  count p (trace_of (wake e file)) =
    (count p [SerialBegin 115200; FsBegin true; WireBegin I2C_SDA_PIN I2C_SCL_PIN]
     + count p (trace_of (initializeSensors e (boot_state file)))
     + count p (trace_of (clock_bootstrap e (boot_state file)))
     + count p (trace_of (morning_sync e (state_at_sync e file)))
     + count p (trace_of (collectAndLogData e (state_at_collect e file)))
     + count p (trace_of (correctPosture e
                            (state_of (collectAndLogData e (state_at_collect e file)))))
     + count p sleep_entry)%nat.
Proof.
  intros Hm. rewrite (wake_mounted e file Hm). project.
  fold (state_at_sync e file). fold (state_at_collect e file).
  rewrite !count_app. lia.
Qed.

Lemma sync_attempts (e : Env) (file : option string) :
  connection_attempts (trace_of (morning_sync e (state_at_sync e file))) =
    (if gate_open e then 1 else 0)%nat.
Proof.
  rewrite state_at_sync_eq. unfold gate_open.
  destruct (rtc_setup e) as [t|] eqn:Hr.
  - destruct (Z_lt_le_dec (tm_hour t) MORNING_HOUR) as [Hlt|Hge].
    + rewrite (morning_sync_closed e (mkState file false (autoConnect_boot e)) t Hr Hlt eq_refl).
      assert ((tm_hour t >=? MORNING_HOUR) = false) as -> by lia. reflexivity.
    + rewrite (morning_sync_open e _ t Hr Hge).
      assert ((tm_hour t >=? MORNING_HOUR) = true) as -> by lia. project.
      unfold connection_attempts. rewrite count_app.
      destruct (autoConnect_sync e); [|reflexivity].
      change (SerialPrint "WiFi connected" :: ?l)
        with ([SerialPrint "WiFi connected"] ++ l).
      rewrite count_app.
      rewrite (count_outside [Flash; Sink; Console] is_AutoConnect
                 (trace_of (sendData e _)) (sendData_footprint e _)); [reflexivity|confined].
  - now rewrite (morning_sync_unread e _ Hr).
Qed.

(** X5.  The number of WiFi associations a wake attempts, in closed form:
    none when the flash does not mount; otherwise one for the clock
    bootstrap, in every wake, and one more whenever the clock is read
    with an hour of [MORNING_HOUR] or later.  So every wake from 06:00 to
    midnight associates twice, and no wake more than twice. *)
Theorem connection_law (e : Env) (file : option string) :
  connection_attempts (trace_of (wake e file)) =
    (if spiffs_begin e then (if gate_open e then 2 else 1) else 0)%nat.
Proof.
  destruct (spiffs_begin e) eqn:Hm.
  - rewrite (connection_attempts_wake e file Hm), sync_attempts.
    now destruct (gate_open e).
  - now rewrite (wake_not_mounted e file Hm).
Qed.

Lemma quiet_bind {A B} (p : Event -> bool) (m : M A) (f : A -> M B) (s : State) :
  count p (trace_of (m s)) = 0%nat ->
  (forall a s', count p (trace_of (f a s')) = 0%nat) ->
  count p (trace_of (bind m f s)) = 0%nat.
Proof. intros Hm Hf. now rewrite trace_bind, count_app, Hm, Hf. Qed.

Lemma quiet_when (p : Event -> bool) (b : bool) (m : M unit) (s : State) :
  count p (trace_of (m s)) = 0%nat -> count p (trace_of (when b m s)) = 0%nat.
Proof. destruct b; [trivial|reflexivity]. Qed.

(** The sync step never switches the radio off, in any state. *)
Lemma sync_never_disconnects (e : Env) (s : State) :
  count is_WiFiDisconnect (trace_of (morning_sync e s)) = 0%nat.
Proof.
  unfold morning_sync. apply quiet_bind; [reflexivity|intros ? ?].
  destruct (rtc_setup e) as [t|]; [|reflexivity].
  apply quiet_bind; [reflexivity|intros ? ?].
  apply quiet_bind; [apply quiet_when; reflexivity|intros ? ?].
  apply quiet_bind; [reflexivity|intros s1 ?].
  apply quiet_when. apply quiet_bind.
  - unfold initializeWiFi. destruct (autoConnect_sync e); reflexivity.
  - intros c ?. apply quiet_when. apply quiet_bind; [|intros ? ?; reflexivity].
    apply (count_outside [Flash; Sink; Console]); [apply sendData_footprint|confined].
Qed.

(** X6.  The radio is switched off ([WiFi.disconnect]) only after a
    successful clock bootstrap: once in a wake whose flash mounts and whose
    first association succeeds, never otherwise.  The sync step never
    switches it off, so after the morning association the radio stays
    associated until the chip sleeps. *)
Theorem disconnect_law (e : Env) (file : option string) :
  count is_WiFiDisconnect (trace_of (wake e file)) =
    (if spiffs_begin e && autoConnect_boot e then 1 else 0)%nat
  /\ forall s, count is_WiFiDisconnect (trace_of (morning_sync e s)) = 0%nat.
Proof.
  split; [|apply sync_never_disconnects].
  destruct (spiffs_begin e) eqn:Hm.
  - rewrite (count_wake _ e file Hm), sync_never_disconnects.
    rewrite (count_outside [Sensors; Console] is_WiFiDisconnect _
               (sensors_footprint e _)) by confined.
    rewrite (count_outside [Sensors; Flash; Clock; Console] is_WiFiDisconnect _
               (collect_footprint e _)) by confined.
    rewrite (count_outside [Sensors; Motor] is_WiFiDisconnect _
               (posture_footprint e _)) by confined.
    rewrite clock_bootstrap_boot. project. cbn [andb].
    destruct (autoConnect_boot e); [destruct (ntp_time e)|]; reflexivity.
  - now rewrite (wake_not_mounted e file Hm).
Qed.

Lemma sensor_init_in_sensors (e : Env) (s : State) :
  count is_sensor_init (trace_of (initializeSensors e s)) =
    (if pox_begin e then 3 else 0)%nat
  /\ count is_sensor_read (trace_of (initializeSensors e s)) = 0%nat.
Proof.
  unfold initializeSensors, when.
  destruct (pox_begin e), (mpu_testConnection e); split; reflexivity.
Qed.

Lemma sensor_use_in_collect (e : Env) (s : State) :
  count is_sensor_init (trace_of (collectAndLogData e s)) = 0%nat
  /\ count is_sensor_read (trace_of (collectAndLogData e s)) = 2%nat.
Proof.
  destruct (open_append e) eqn:Ho.
  - destruct (rtc_log e) as [t|] eqn:Hr.
    + rewrite (collect_logged e s t Ho Hr). split; reflexivity.
    + rewrite (collect_clock_unread e s Ho Hr). split; reflexivity.
  - rewrite (collect_not_opened e s Ho). split; reflexivity.
Qed.

Lemma sensor_use_in_posture (e : Env) (s : State) :
  count is_sensor_init (trace_of (correctPosture e s)) = 0%nat
  /\ count is_sensor_read (trace_of (correctPosture e s)) = 1%nat.
Proof.
  destruct (accel e) as [[ax ay] az] eqn:Ha.
  rewrite (correctPosture_run e s ax ay az Ha).
  destruct ((Z.abs ax >? 15000) || (Z.abs ay >? 15000)); split; reflexivity.
Qed.

(** X7.  When [pox.begin()] fails, [initializeSensors] returns at once:
    neither the optical sensor is configured nor the temperature sensor
    and the accelerometer initialised.  The wake goes on all the same: it
    samples the optical sensor, requests the temperature and reads the
    acceleration, and ends in deep sleep. *)
Theorem sensors_read_uninitialised (e : Env) (file : option string) :
  spiffs_begin e = true ->
  pox_begin e = false ->
  count is_sensor_init (trace_of (wake e file)) = 0%nat
  /\ count is_sensor_read (trace_of (wake e file)) = 3%nat
  /\ value_of (wake e file) = Asleep.
Proof.
  intros Hm Hp.
  split; [|split; [|now apply wake_mounted_asleep]].
  - rewrite (count_wake _ e file Hm).
    rewrite (proj1 (sensor_init_in_sensors e _)), Hp.
    rewrite (proj1 (sensor_use_in_collect e _)), (proj1 (sensor_use_in_posture e _)).
    rewrite (count_outside [Radio; Clock; Console] is_sensor_init _
               (bootstrap_footprint e _)) by confined.
    rewrite (count_outside [Clock; Radio; Flash; Sink; Console] is_sensor_init _
               (sync_footprint e _)) by confined.
    reflexivity.
  - rewrite (count_wake _ e file Hm).
    rewrite (proj2 (sensor_init_in_sensors e _)).
    rewrite (proj2 (sensor_use_in_collect e _)), (proj2 (sensor_use_in_posture e _)).
    rewrite (count_outside [Radio; Clock; Console] is_sensor_read _
               (bootstrap_footprint e _)) by confined.
    rewrite (count_outside [Clock; Radio; Flash; Sink; Console] is_sensor_read _
               (sync_footprint e _)) by confined.
    reflexivity.
Qed.

Lemma sensors_read_uninitialised_witness :
  let e := mkEnv true false true true None false (Some (mk_tm 2 0 0)) true (fun _ => true)
                 98 1 72 1 36.5%float true (Some (mk_tm 2 0 0)) (0, 0, 16384) libc_zero in
  count is_sensor_read (trace_of (wake e None)) = 3%nat.
Proof.
  cbv zeta.
  apply (sensors_read_uninitialised
           (mkEnv true false true true None false (Some (mk_tm 2 0 0)) true (fun _ => true)
              98 1 72 1 36.5%float true (Some (mk_tm 2 0 0)) (0, 0, 16384) libc_zero)
           None); reflexivity.
Defined.

(** ** The motor *)

Lemma motor_level_app (a b : list Event) (lvl : bool) :
  motor_level (a ++ b) lvl = motor_level b (motor_level a lvl).
Proof. apply fold_left_app. Qed.

Lemma motor_level_outside (ds : list Device) (t : list Event) (lvl : bool) :
  only ds t = true -> existsb (Device_eqb Motor) ds = false ->
  motor_level t lvl = lvl.
Proof.
  intros Ho Hd. revert lvl. induction t as [|ev t IH]; intros lvl; [reflexivity|].
  unfold only in Ho. cbn [forallb] in Ho. apply andb_true_iff in Ho as [H1 H2].
  unfold motor_level in *. cbn [fold_left]. rewrite (IH H2).
  destruct ev; try reflexivity; unfold among in H1; cbn [device] in H1; congruence.
Qed.

(** X8.  The motor over a wake.  It is pulsed at most once: once when the
    flash mounts and the acceleration is above the threshold, not at all
    otherwise.  Whatever happens in the wake, a motor that was off at the
    start is off at the end: the chip never goes to sleep (or stalls) with
    the motor running. *)
Theorem motor_law (e : Env) (file : option string) :
  count is_motor_on (trace_of (wake e file)) =
    (if spiffs_begin e && tilted e then 1 else 0)%nat
  /\ motor_level (trace_of (wake e file)) false = false.
Proof.
  destruct (spiffs_begin e) eqn:Hm.
  - split.
    + rewrite (count_wake _ e file Hm).
      rewrite (count_outside [Sensors; Console] is_motor_on _
                 (sensors_footprint e _)) by confined.
      rewrite (count_outside [Radio; Clock; Console] is_motor_on _
                 (bootstrap_footprint e _)) by confined.
      rewrite (count_outside [Clock; Radio; Flash; Sink; Console] is_motor_on _
                 (sync_footprint e _)) by confined.
      rewrite (count_outside [Sensors; Flash; Clock; Console] is_motor_on _
                 (collect_footprint e _)) by confined.
      unfold tilted. destruct (accel e) as [[ax ay] az] eqn:Ha.
      rewrite (correctPosture_run e _ ax ay az Ha). project. cbn [andb].
      destruct ((Z.abs ax >? 15000) || (Z.abs ay >? 15000)); reflexivity.
    + rewrite (wake_mounted e file Hm). project.
      rewrite !motor_level_app.
      change (motor_level [SerialBegin 115200; FsBegin true;
                           WireBegin I2C_SDA_PIN I2C_SCL_PIN] false) with false.
      rewrite (motor_level_outside [Sensors; Console] _ _ (sensors_footprint e _) eq_refl).
      rewrite (motor_level_outside [Radio; Clock; Console] _ _
                 (bootstrap_footprint e _) eq_refl).
      rewrite (motor_level_outside [Clock; Radio; Flash; Sink; Console] _ _
                 (sync_footprint e _) eq_refl).
      rewrite (motor_level_outside [Sensors; Flash; Clock; Console] _ _
                 (collect_footprint e _) eq_refl).
      destruct (accel e) as [[ax ay] az] eqn:Ha.
      rewrite (correctPosture_run e _ ax ay az Ha). project.
      destruct ((Z.abs ax >? 15000) || (Z.abs ay >? 15000)); reflexivity.
  - rewrite (wake_not_mounted e file Hm). split; reflexivity.
Qed.

(** ** Reading the log back, for any file *)

Lemma readStringUntil_no_newline (s : string) :
  no_newline (fst (readStringUntil newline s)) = true.
Proof.
  induction s as [|c s IH]; [reflexivity|].
  cbn [readStringUntil]. destruct (Ascii.eqb c newline) eqn:Ec; [reflexivity|].
  destruct (readStringUntil newline s) as [l r]. cbn in *. now rewrite Ec, IH.
Qed.

Lemma read_loop_no_newline (n : nat) (s : string) :
  forallb no_newline (read_loop n s) = true.
Proof.
  revert s. induction n as [|n IH]; intros s; [reflexivity|].
  cbn [read_loop]. destruct (available s); [|reflexivity].
  pose proof (readStringUntil_no_newline s) as H.
  destruct (readStringUntil newline s) as [l r]. cbn in *. now rewrite H, IH.
Qed.

(** What [readStringUntil] returns, against the text it was given. *)
Lemma readStringUntil_split (s : string) :
  let '(l, r) := readStringUntil newline s in
  (s = (l ++ String newline r)%string)
  \/ (s = l /\ r = EmptyString /\ no_newline s = true).
Proof.
  induction s as [|c s IH]; [right; repeat split|].
  cbn [readStringUntil]. destruct (Ascii.eqb c newline) eqn:Ec.
  - left. apply Ascii.eqb_eq in Ec. now subst c.
  - destruct (readStringUntil newline s) as [l r].
    destruct IH as [IH|(IH1 & IH2 & IH3)].
    + left. cbn. now rewrite IH at 1.
    + right. subst l r. repeat split. cbn. now rewrite Ec, IH3.
Qed.

Lemma terminated_after_line (l r : string) :
  terminated (l ++ String newline r)%string =
    match r with EmptyString => true | String _ _ => terminated r end.
Proof.
  induction l as [|c l IH].
  - cbn. destruct r; reflexivity.
  - cbn [String.append terminated]. rewrite IH.
    destruct (l ++ String newline r)%string eqn:E; [|reflexivity].
    destruct l; discriminate E.
Qed.

Lemma not_terminated (c : ascii) (s : string) :
  no_newline (String c s) = true -> terminated (String c s) = false.
Proof.
  revert c. induction s as [|c' s IH]; intros c H; cbn in *.
  - apply andb_true_iff in H as [H _]. now apply negb_true_iff in H.
  - apply andb_true_iff in H as [_ H]. apply (IH c'). exact H.
Qed.

Lemma read_loop_rejoin (n : nat) (s : string) :
  (String.length s <= n)%nat ->
  file_of_lines (read_loop n s) = if terminated s then s else (s ++ nl)%string.
Proof.
  revert s. induction n as [|n IH]; intros s Hn.
  - destruct s; [reflexivity|cbn in Hn; lia].
  - destruct s as [|c s]; [reflexivity|].
    cbn [read_loop available].
    pose proof (readStringUntil_split (String c s)) as Hsp.
    pose proof (readStringUntil_shorter newline (String c s)) as Hlen.
    destruct (readStringUntil newline (String c s)) as [l r] eqn:E.
    cbn [snd] in Hlen. cbn [file_of_lines].
    assert (String.length r <= n)%nat as Hr.
    { cbn [readStringUntil] in E. destruct (Ascii.eqb c newline).
      - injection E as _ <-. cbn in Hn. lia.
      - pose proof (readStringUntil_shorter newline s) as Hs.
        destruct (readStringUntil newline s) as [l' r']. injection E as _ <-.
        cbn in *. lia. }
    rewrite (IH r Hr).
    destruct Hsp as [Hs|(Hs & -> & Hnn)].
    + rewrite Hs. rewrite terminated_after_line.
      destruct r as [|c' r']; [reflexivity|].
      destruct (terminated (String c' r')); [reflexivity|].
      rewrite string_app_assoc. reflexivity.
    + subst l. rewrite (not_terminated c s Hnn). reflexivity.
Qed.

(** X9.  The read loop of [sendData] on any file, whatever wrote it: no
    line it hands to the sink contains a line feed, and the lines, each
    followed by a line feed, spell the file again - with one line feed
    more at the end when the file does not end with one.  So an
    unterminated last line is sent like any other, empty lines are sent as
    empty lines, and no character of the file is skipped or sent twice. *)
Theorem read_lines_rejoin (s : string) :
  forallb no_newline (read_lines s) = true
  /\ file_of_lines (read_lines s) = if terminated s then s else (s ++ nl)%string.
Proof.
  split.
  - apply read_loop_no_newline.
  - apply read_loop_rejoin. lia.
Qed.

(** ** The time stamp of a record *)

Lemma fmt_d02_checked :
  forallb (fun a =>
    Nat.eqb (String.length (fmt_d02 (Z.of_nat a))) 2
    && forallb (fun b =>
         implb (String.eqb (fmt_d02 (Z.of_nat a)) (fmt_d02 (Z.of_nat b))) (Nat.eqb a b))
         (seq 0 60))
    (seq 0 60) = true.
Proof. vm_compute. reflexivity. Qed.

Lemma fmt_d02_two (z : Z) :
  0 <= z < 60 -> String.length (fmt_d02 z) = 2%nat.
Proof.
  intros Hz. pose proof fmt_d02_checked as H.
  rewrite forallb_forall in H.
  specialize (H (Z.to_nat z)). rewrite Z2Nat.id in H by lia.
  assert (In (Z.to_nat z) (seq 0 60)) as Hin by (apply in_seq; lia).
  apply H in Hin. apply andb_true_iff in Hin as [Hl _].
  now apply Nat.eqb_eq.
Qed.

Lemma fmt_d02_inj (a b : Z) :
  0 <= a < 60 -> 0 <= b < 60 -> fmt_d02 a = fmt_d02 b -> a = b.
Proof.
  intros Ha Hb E. pose proof fmt_d02_checked as H.
  rewrite forallb_forall in H.
  assert (In (Z.to_nat a) (seq 0 60)) as Hina by (apply in_seq; lia).
  apply H in Hina. apply andb_true_iff in Hina as [_ Hall].
  rewrite forallb_forall in Hall.
  assert (In (Z.to_nat b) (seq 0 60)) as Hinb by (apply in_seq; lia).
  apply Hall in Hinb. rewrite !Z2Nat.id in Hinb by lia.
  rewrite E, String.eqb_refl in Hinb. cbn in Hinb.
  apply Nat.eqb_eq in Hinb. lia.
Qed.

Lemma string_app_inv (a b x y : string) :
  String.length a = String.length b ->
  (a ++ x)%string = (b ++ y)%string -> a = b /\ x = y.
Proof.
  revert b. induction a as [|c a IH]; intros [|c' b] Hl E; try discriminate Hl.
  - split; [reflexivity|exact E].
  - cbn in E. injection E as -> E. injection Hl as Hl.
    destruct (IH b Hl E) as [-> ->]. split; reflexivity.
Qed.

(** X10.  The time stamp identifies the clock reading.  For clock readings
    within a day, every field is written with exactly two characters, and
    two log lines are equal only if they were written at the same hour,
    minute and second, whatever the rest of the line holds. *)
Theorem timestamp_identifies_time (lc lc' : Libc) (t t' : tm)
    (hr hr' sp sp' : Z) (te te' : float) :
  valid_time t -> valid_time t' ->
  log_line lc t hr sp te = log_line lc' t' hr' sp' te' ->
  t = t'.
Proof.
  intros (Hh & Hm & Hs) (Hh' & Hm' & Hs') E.
  rewrite !log_line_record in E. unfold log_record in E.
  rewrite !string_app_assoc in E.
  apply string_app_inv in E as [Eh E];
    [|rewrite !fmt_d02_two by lia; reflexivity].
  cbn [String.append] in E. injection E as E.
  apply string_app_inv in E as [Em E];
    [|rewrite !fmt_d02_two by lia; reflexivity].
  cbn [String.append] in E. injection E as E.
  apply string_app_inv in E as [Es _];
    [|rewrite !fmt_d02_two by lia; reflexivity].
  apply fmt_d02_inj in Eh; [|lia|lia].
  apply fmt_d02_inj in Em; [|lia|lia].
  apply fmt_d02_inj in Es; [|lia|lia].
  destruct t, t'. cbn in *. now subst.
Qed.

Lemma timestamp_identifies_time_witness :
  mk_tm 5 59 40 = mk_tm 5 59 40.
Proof.
  apply (timestamp_identifies_time libc_zero libc_zero (mk_tm 5 59 40) (mk_tm 5 59 40)
           72 72 98 98 36.5%float 36.5%float).
  - unfold valid_time. cbn. lia.
  - unfold valid_time. cbn. lia.
  - reflexivity.
Defined.

(** * Properties of the dashboard script *)

Lemma stage_cases (h s t : float) :
  (ltb 90 h = true /\ detectSleepStage (Some h) (Some s) (Some t) = "Awake")
  \/ (ltb 90 h = false
      /\ In (detectSleepStage (Some h) (Some s) (Some t))
            ["Deep Sleep"; "Light Sleep"; "REM Sleep"]).
Proof.
  unfold detectSleepStage. destruct (ltb 90 h); [left; split; reflexivity|right].
  split; [reflexivity|].
  repeat match goal with
    | |- context [if ?b then _ else _] => destruct b
    end; cbn; auto.
Qed.

(** X11.  [detectSleepStage] answers ["Unknown"] exactly when one of the
    three measurements is missing; otherwise it answers one of the four
    stage names, and ["Awake"] exactly when the heart rate is above 90,
    whatever the oxygen saturation and the temperature are. *)
Theorem detectSleepStage_answers (hr spo2 temp : option float) :
  (detectSleepStage hr spo2 temp = "Unknown"
   <-> hr = None \/ spo2 = None \/ temp = None)
  /\ In (detectSleepStage hr spo2 temp)
        ["Unknown"; "Awake"; "Deep Sleep"; "Light Sleep"; "REM Sleep"]
  /\ (forall h s t, hr = Some h -> spo2 = Some s -> temp = Some t ->
      (detectSleepStage hr spo2 temp = "Awake" <-> ltb 90 h = true)).
Proof.
  destruct hr as [h|], spo2 as [s|], temp as [t|];
    try (split; [split; [intros _; auto|reflexivity]
                |split; [cbn; auto|intros ? ? ? H1 H2 H3; discriminate]]).
  destruct (stage_cases h s t) as [[Hh Hr]|[Hh Hr]].
  - rewrite Hr. split; [|split].
    + split; [discriminate|intros [H|[H|H]]; discriminate H].
    + cbn. auto.
    + intros h' s' t' [= <-] _ _. split; auto.
  - split; [|split].
    + split.
      * intros E. rewrite E in Hr. cbn [In] in Hr.
        destruct Hr as [H|[H|[H|[]]]]; discriminate H.
      * intros [H|[H|H]]; discriminate H.
    + cbn [In] in Hr |- *. tauto.
    + intros h' s' t' [= <-] _ _. split.
      * intros E. rewrite E in Hr. cbn [In] in Hr.
        destruct Hr as [H|[H|[H|[]]]]; discriminate H.
      * intros H. congruence.
Qed.

Lemma detectSleepStage_answers_witness :
  detectSleepStage (Some 95%float) (Some 80%float) None = "Unknown"
  /\ detectSleepStage (Some 95%float) (Some 80%float) (Some 30%float) = "Awake".
Proof.
  split.
  - apply (proj1 (detectSleepStage_answers (Some 95%float) (Some 80%float) None)).
    right. right. reflexivity.
  - apply (proj2 (proj2 (detectSleepStage_answers
                           (Some 95%float) (Some 80%float) (Some 30%float)))
             95%float 80%float 30%float eq_refl eq_refl eq_refl).
    reflexivity.
Defined.

(** X12.  The tick callback inverts [stageMap]: the label found for the
    number of a stage is that stage, for each of the four stages; and a
    label is only ever found for a number that [stageMap] gives to it, so
    the tick at 0, below the four stages, has no label. *)
Theorem tick_label_inverts (k : string) (v : float) :
  (property stageMap k = Some v -> tick_label v = Some k)
  /\ (tick_label v = Some k ->
      exists v', property stageMap k = Some v' /\ PrimFloat.eqb v' v = true)
  /\ tick_label 0%float = None.
Proof.
  split; [|split].
  - unfold stageMap. cbn [property].
    repeat match goal with
      | |- (if String.eqb ?a k then _ else _) = _ -> _ =>
          let E := fresh "E" in
          destruct (String.eqb a k) eqn:E;
            [apply String.eqb_eq in E; subst k; intros [= <-]; reflexivity|]
      end.
    discriminate.
  - unfold tick_label. intros H. apply find_some in H as [_ H].
    destruct (property stageMap k) as [v'|]; [|discriminate H].
    exists v'. split; [reflexivity|exact H].
  - reflexivity.
Qed.

Lemma tick_label_inverts_witness : tick_label 3%float = Some "REM Sleep".
Proof.
  apply (proj1 (tick_label_inverts "REM Sleep" 3%float)). reflexivity.
Defined.

Lemma nth_map_seq {A} (f : nat -> A) (n i : nat) (d : A) :
  (i < n)%nat -> nth i (map f (seq 0 n)) d = f i.
Proof.
  intros Hi. rewrite (nth_indep _ d (f 0%nat)) by (now rewrite length_map, length_seq).
  rewrite map_nth, seq_nth by assumption. reflexivity.
Qed.

Lemma stage_plotted (hr spo2 temp : option float) :
  (property stageMap (detectSleepStage hr spo2 temp) = None
   <-> hr = None \/ spo2 = None \/ temp = None)
  /\ (property stage_colors (detectSleepStage hr spo2 temp) = None
      <-> hr = None \/ spo2 = None \/ temp = None).
Proof.
  destruct hr as [h|], spo2 as [s|], temp as [t|];
    try (split; (split; [intros _; auto|intros _; reflexivity])).
  destruct (stage_cases h s t) as [[_ Hr]|[_ Hr]].
  - rewrite Hr.
    split; (split; [cbn; discriminate|intros [H|[H|H]]; discriminate H]).
  - cbn [In] in Hr. destruct Hr as [H|[H|[H|[]]]]; rewrite <- H;
      split; (split; [cbn; discriminate|intros [H'|[H'|H']]; discriminate H']).
Qed.

(** X13.  The sleep analysis pairs the three series by position and stops
    at the shortest.  It draws as many bars as the shortest series has
    items, labelled with the time stamps of the heart-rate series; the bar
    at a position has a height and a colour exactly when all three
    measurements at this position are present, and none of the two
    otherwise. *)
Theorem analysis_bars (hrData spo2Data tempData : list reading) (i : nat) :
  let len := Nat.min (List.length hrData)
               (Nat.min (List.length spo2Data) (List.length tempData)) in
  let labels := fst (sleepDetection hrData spo2Data tempData) in
  let stages := snd (sleepDetection hrData spo2Data tempData) in
  let heights := fst (plotSleepStages stages) in
  let colours := snd (plotSleepStages stages) in
  let missing := value (nth i hrData no_reading) = None
                 \/ value (nth i spo2Data no_reading) = None
                 \/ value (nth i tempData no_reading) = None in
  List.length labels = len /\ List.length heights = len /\ List.length colours = len
  /\ ((i < len)%nat ->
      nth i labels EmptyString = timestamp (nth i hrData no_reading)
      /\ (nth i heights None = None <-> missing)
      /\ (nth i colours None = None <-> missing)).
Proof.
  cbv zeta. unfold sleepDetection, plotSleepStages. cbn [fst snd].
  rewrite !length_map, !length_seq. repeat split; try reflexivity.
  - now rewrite nth_map_seq.
  - rewrite map_map, nth_map_seq by assumption. apply stage_plotted.
  - rewrite map_map, nth_map_seq by assumption. apply stage_plotted.
  - rewrite map_map, nth_map_seq by assumption. apply stage_plotted.
  - rewrite map_map, nth_map_seq by assumption. apply stage_plotted.
Qed.

Lemma analysis_bars_witness :
  let hrData := [mk_reading "03:00:00" (Some 55%float); mk_reading "03:00:20" None] in
  let spo2Data := [mk_reading "03:00:00" (Some 97%float); mk_reading "03:00:20" (Some 97%float)] in
  let tempData := [mk_reading "03:00:00" (Some 36.25%float);
                   mk_reading "03:00:20" (Some 36.25%float);
                   mk_reading "03:00:40" (Some 36.25%float)] in
  nth 1 (fst (plotSleepStages (snd (sleepDetection hrData spo2Data tempData)))) None = None.
Proof.
  cbv zeta.
  apply (analysis_bars
           [mk_reading "03:00:00" (Some 55%float); mk_reading "03:00:20" None]
           [mk_reading "03:00:00" (Some 97%float); mk_reading "03:00:20" (Some 97%float)]
           [mk_reading "03:00:00" (Some 36.25%float);
            mk_reading "03:00:20" (Some 36.25%float);
            mk_reading "03:00:40" (Some 36.25%float)] 1%nat).
  - cbn. lia.
  - left. reflexivity.
Defined.
